(** * A two-tier web application: the Flask handlers of [src/app.py]
      over a model of the MySQL store they talk to.

    The handlers are embedded as computations in a state-and-exception
    monad over a [world]: the committed tables, the connections handed out
    by the driver, the diagnostic logger, and a plan of the failures the
    store is going to produce.  Quantifying over the plan is quantifying
    over the behaviours of the store. *)

From Stdlib Require Import ZArith List String Ascii Bool Lia Sorted Permutation.
From Stdlib Require Import DecimalString.
Import ListNotations.
Open Scope string_scope.

Set Warnings "-register-all".

(* ================================================================== *)
(** ** Python values *)

(** The values that travel through the handlers: parsed JSON bodies, the
    rows a [DictCursor] returns and the dictionaries given to [jsonify].
    JSON floats are left out; a [datetime] is kept as a clock reading. *)
Inductive pyval : Type :=
| PNone
| PBool (b : bool)
| PInt (z : Z)
| PStr (s : string)
| PTime (t : Z)
| PList (l : list pyval)
| PDict (kvs : list (string * pyval)).

(** Python truth value, as tested by [if not data] and [if not name]. *)
Definition truthy (v : pyval) : bool :=
  match v with
  | PNone => false
  | PBool b => b
  | PInt z => negb (z =? 0)%Z
  | PStr s => negb (s =? "")
  | PTime _ => true
  | PList l => match l with [] => false | _ :: _ => true end
  | PDict kvs => match kvs with [] => false | _ :: _ => true end
  end.

(** Decimal rendering of an integer, [str(n)]. *)
Definition dec (z : Z) : string := NilZero.string_of_int (Z.to_int z).

(** [datetime.isoformat()]; the calendar rendering is not modelled, a
    time stays the number the clock shows. *)
Definition isoformat (t : Z) : string := dec t.

Definition dq : string := String (ascii_of_nat 34) EmptyString.

Fixpoint join (sep : string) (l : list string) : string :=
  match l with
  | [] => ""
  | [x] => x
  | x :: r => x ++ sep ++ join sep r
  end.

(** [repr(v)], without the escape sequences of string literals. *)
Fixpoint py_repr (v : pyval) : string :=
  match v with
  | PNone => "None"
  | PBool true => "True"
  | PBool false => "False"
  | PInt z => dec z
  | PStr s => "'" ++ s ++ "'"
  | PTime t => isoformat t
  | PList l => "[" ++ join ", " (map py_repr l) ++ "]"
  | PDict kvs =>
      "{" ++ join ", "
        (map (fun kv : string * pyval =>
                let (k, x) := kv in "'" ++ k ++ "': " ++ py_repr x) kvs)
      ++ "}"
  end.

(** [str(v)], what an f-string interpolates. *)
Definition py_str (v : pyval) : string :=
  match v with
  | PStr s => s
  | _ => py_repr v
  end.

Definition type_name (v : pyval) : string :=
  match v with
  | PNone => "NoneType"
  | PBool _ => "bool"
  | PInt _ => "int"
  | PStr _ => "str"
  | PTime _ => "datetime.datetime"
  | PList _ => "list"
  | PDict _ => "dict"
  end.

Fixpoint assoc (k : string) (kvs : list (string * pyval)) : option pyval :=
  match kvs with
  | [] => None
  | (k', v) :: r => if k' =? k then Some v else assoc k r
  end.

(** [d.get(k)] on the items of a dict: [None] when the key is absent.
    The keys of a dict are distinct, so the first match is the match. *)
Definition field (k : string) (kvs : list (string * pyval)) : pyval :=
  match assoc k kvs with
  | Some v => v
  | None => PNone
  end.

(** [needle in haystack] on strings. *)
Fixpoint str_contains (needle hay : string) : bool :=
  String.prefix needle hay ||
  match hay with
  | EmptyString => false
  | String _ r => str_contains needle r
  end.

(* ================================================================== *)
(** ** Exceptions *)

Inductive exn_class : Type :=
| IntegrityError      (* pymysql.err.IntegrityError *)
| OperationalError    (* pymysql.err.OperationalError *)
| ProgrammingError    (* pymysql.err.ProgrammingError *)
| InterfaceError      (* pymysql.err.InterfaceError *)
| MySQLError          (* pymysql.err.Error *)
| TypeError
| AttributeError
| BadRequest          (* werkzeug, raised by request.get_json() *)
| OtherException.     (* any other subclass of Exception *)

(** An exception: its class and [str(e)].  Only subclasses of [Exception]
    are represented, which are the ones a failing store raises. *)
Record exn : Type := Exn { exn_class_of : exn_class; exn_str : string }.

Definition is_IntegrityError (e : exn) : bool :=
  match exn_class_of e with IntegrityError => true | _ => false end.

(** A pymysql error carries [(errno, message)]; [str] shows the pair.
    The message is put between double quotes, which is what Python's
    [repr] chooses for a text that holds an apostrophe and no double
    quote, as the server's messages about a column, a key or a host do;
    for other messages the quotes and the escapes of [repr] are not
    modelled. *)
Definition mysql_error (c : exn_class) (errno : Z) (msg : string) : exn :=
  Exn c ("(" ++ dec errno ++ ", " ++ dq ++ msg ++ dq ++ ")").

Definition result (A : Type) : Type := (exn + A)%type.

(* ================================================================== *)
(** ** Tables, connections, world *)

(** A row of [users], columns as in the [CREATE TABLE] of [init_database]. *)
Record user_row : Type := UserRow {
  u_id : Z;
  u_name : string;
  u_email : string;
  u_created_at : Z;
  u_updated_at : Z
}.

(** A row of [logs]. *)
Record log_row : Type := LogRow {
  l_id : Z;
  l_level : string;
  l_message : string;
  l_instance_id : string;
  l_created_at : Z
}.

Record tables : Type := Tables {
  users : list user_row;
  logs : list log_row
}.

(** A connection object: whether it is still open and the tables as its
    transaction sees them (pymysql connects with autocommit off, so a
    statement changes this view and [commit] publishes it). *)
Record connection : Type := Conn {
  c_open : bool;
  c_txn : tables
}.

(** The module-level constants of [app.py], read from the environment. *)
Record config : Type := Config {
  INSTANCE_ID : string;
  DB_HOST : string;
  DB_NAME : string
}.

Record world : Type := World {
  env : config;
  clock : Z;                          (* CURRENT_TIMESTAMP / utcnow() *)
  strict_mode : bool;                 (* the server's strict SQL mode *)
  committed : tables;
  users_auto : Z;                     (* AUTO_INCREMENT of users *)
  logs_auto : Z;                      (* AUTO_INCREMENT of logs *)
  conns : list (nat * connection);    (* connection objects by handle *)
  next_conn : nat;
  faults : list (option exn);         (* what the next driver calls do *)
  diag : list string;                 (* lines written by [logger] *)
  audit_calls : list (string * string) (* the calls of [log_event] *)
}.

Definition set_committed (t : tables) (w : world) : world :=
  World (env w) (clock w) (strict_mode w) t (users_auto w) (logs_auto w)
        (conns w) (next_conn w) (faults w) (diag w) (audit_calls w).

Definition set_users_auto (n : Z) (w : world) : world :=
  World (env w) (clock w) (strict_mode w) (committed w) n (logs_auto w)
        (conns w) (next_conn w) (faults w) (diag w) (audit_calls w).

Definition set_logs_auto (n : Z) (w : world) : world :=
  World (env w) (clock w) (strict_mode w) (committed w) (users_auto w) n
        (conns w) (next_conn w) (faults w) (diag w) (audit_calls w).

Definition set_conns (cs : list (nat * connection)) (n : nat) (w : world) : world :=
  World (env w) (clock w) (strict_mode w) (committed w) (users_auto w)
        (logs_auto w) cs n (faults w) (diag w) (audit_calls w).

Definition set_faults (fs : list (option exn)) (w : world) : world :=
  World (env w) (clock w) (strict_mode w) (committed w) (users_auto w)
        (logs_auto w) (conns w) (next_conn w) fs (diag w) (audit_calls w).

Definition set_diag (d : list string) (w : world) : world :=
  World (env w) (clock w) (strict_mode w) (committed w) (users_auto w)
        (logs_auto w) (conns w) (next_conn w) (faults w) d (audit_calls w).

Definition set_audit_calls (a : list (string * string)) (w : world) : world :=
  World (env w) (clock w) (strict_mode w) (committed w) (users_auto w)
        (logs_auto w) (conns w) (next_conn w) (faults w) (diag w) a.

Fixpoint conn_get (c : nat) (cs : list (nat * connection)) : option connection :=
  match cs with
  | [] => None
  | (c', cn) :: r => if Nat.eqb c' c then Some cn else conn_get c r
  end.

Fixpoint conn_put (c : nat) (cn : connection) (cs : list (nat * connection))
  : list (nat * connection) :=
  match cs with
  | [] => []
  | (c', cn') :: r =>
      if Nat.eqb c' c then (c', cn) :: r else (c', cn') :: conn_put c cn r
  end.

(** The connection objects that were acquired and not closed. *)
Definition open_conns (w : world) : list nat :=
  map fst (filter (fun p => c_open (snd p)) (conns w)).

(* ================================================================== *)
(** ** The monad of handlers: state and exceptions *)

Definition M (A : Type) : Type := world -> result A * world.

Definition ret {A} (a : A) : M A := fun w => (inr a, w).

Definition raise {A} (e : exn) : M A := fun w => (inl e, w).

Definition bind {A B} (m : M A) (f : A -> M B) : M B :=
  fun w =>
    match m w with
    | (inl e, w1) => (inl e, w1)
    | (inr a, w1) => f a w1
    end.

(** [try: m  except Exception as e: h e].  The state reached when the
    exception was raised is the one the handler starts from. *)
Definition try_except {A} (m : M A) (h : exn -> M A) : M A :=
  fun w =>
    match m w with
    | (inl e, w1) => h e w1
    | (inr a, w1) => (inr a, w1)
    end.

Definition gets {A} (f : world -> A) : M A := fun w => (inr (f w), w).

Definition modify (f : world -> world) : M unit := fun w => (inr tt, f w).

Definition lift {A} (r : result A) : M A := fun w => (r, w).

Declare Scope monad_scope.
Delimit Scope monad_scope with monad.
Notation "x <- m ;; k" := (bind m (fun x => k))
  (at level 61, m at next level, right associativity) : monad_scope.
Notation "m ;; k" := (bind m (fun _ => k))
  (at level 61, right associativity) : monad_scope.
Open Scope monad_scope.

(** [logger.error(line)] and [logger.info(line)]: the local channel. *)
Definition logger_write (line : string) : M unit :=
  modify (fun w => set_diag (diag w ++ [line]) w).

(* ================================================================== *)
(** ** The store: pymysql and the MySQL server behind it

    The server is outside the repository; it is modelled as far as the
    handlers can observe it.  Assumptions: text is compared by equality
    (in [WHERE] and for the [UNIQUE] key), text fits its column, an
    [AUTO_INCREMENT] value is fresh and is not given back by a rollback,
    rows of equal [created_at] keep their insertion order under
    [ORDER BY], and requests are handled one at a time. *)

(** One round trip to the server: the next entry of the failure plan
    decides whether it fails; an exhausted plan means the store works. *)
Definition driver_call : M unit :=
  fun w =>
    match faults w with
    | [] => (inr tt, w)
    | None :: r => (inr tt, set_faults r w)
    | Some e :: r => (inl e, set_faults r w)
    end.

(** [pymysql.connect(...)]: a new connection object, open, whose
    transaction starts from the committed tables. *)
Definition pymysql_connect : M nat :=
  driver_call ;;
  (fun w =>
     let c := next_conn w in
     (inr c, set_conns ((c, Conn true (committed w)) :: conns w) (S c) w)).

(** A statement parameter after the driver has turned it into SQL text. *)
Inductive sql_expr : Type :=
| ENull
| EText (s : string)
| ERow (l : list sql_expr).

(** [conn.literal(v)]: the driver's conversion of a Python parameter.  A
    list becomes a parenthesised sequence, a dict is refused. *)
Fixpoint literal (v : pyval) : result sql_expr :=
  match v with
  | PNone => inr ENull
  | PBool b => inr (EText (if b then "1" else "0"))
  | PInt z => inr (EText (dec z))
  | PStr s => inr (EText s)
  | PTime t => inr (EText (isoformat t))
  | PList l =>
      match
        (fix each (l : list pyval) : result (list sql_expr) :=
           match l with
           | [] => inr []
           | x :: r =>
               match literal x with
               | inl e => inl e
               | inr a =>
                   match each r with
                   | inl e => inl e
                   | inr b => inr (a :: b)
                   end
               end
           end) l
      with
      | inl e => inl e
      | inr es => inr (ERow es)
      end
  | PDict _ => inl (Exn TypeError "dict can not be used as parameter")
  end.

(** The server's reading of a parameter where one value is expected:
    [None] is SQL NULL. *)
Fixpoint sql_scalar (e : sql_expr) : result (option string) :=
  match e with
  | ENull => inr None
  | EText s => inr (Some s)
  | ERow [] =>
      inl (mysql_error ProgrammingError 1064 "You have an error in your SQL syntax")
  | ERow [x] => sql_scalar x
  | ERow (_ :: _ :: _) =>
      inl (mysql_error OperationalError 1241 "Operand should contain 1 column(s)")
  end.

Definition cannot_be_null (col : string) : exn :=
  mysql_error IntegrityError 1048 ("Column '" ++ col ++ "' cannot be null").

Definition duplicate_entry (v key : string) : exn :=
  mysql_error IntegrityError 1062
    ("Duplicate entry '" ++ v ++ "' for key '" ++ key ++ "'").

(** NULL for a [NOT NULL] column: an [INSERT] of one row is refused; an
    [UPDATE] is refused in strict mode and stores the empty string
    otherwise. *)
Definition not_null_insert (col : string) (v : option string) : result string :=
  match v with
  | Some s => inr s
  | None => inl (cannot_be_null col)
  end.

Definition not_null_update (strict : bool) (col : string) (v : option string)
  : result string :=
  match v with
  | Some s => inr s
  | None => if strict then inl (cannot_be_null col) else inr ""
  end.

(** [ORDER BY key DESC] as a stable insertion sort. *)
Fixpoint insert_desc {A} (key : A -> Z) (x : A) (l : list A) : list A :=
  match l with
  | [] => [x]
  | y :: r =>
      if (key x <? key y)%Z then y :: insert_desc key x r else x :: y :: r
  end.

Fixpoint sort_desc {A} (key : A -> Z) (l : list A) : list A :=
  match l with
  | [] => []
  | x :: r => insert_desc key x (sort_desc key r)
  end.

Definition has_id (id : Z) (u : user_row) : bool := (u_id u =? id)%Z.

(** The row an [UPDATE ... SET name, email WHERE id] leaves in place of
    [u]: both columns replaced, [updated_at] set by the server. *)
Definition set_name_email (id : Z) (n e : string) (now : Z) (u : user_row)
  : user_row :=
  if has_id id u then UserRow (u_id u) n e (u_created_at u) now else u.

(** [INSERT INTO users (name, email) VALUES (%s, %s)]; gives [lastrowid]. *)
Definition sql_insert_user (name email : sql_expr) (t : tables) : M (Z * tables) :=
  n <- lift (sql_scalar name) ;;
  e <- lift (sql_scalar email) ;;
  n' <- lift (not_null_insert "name" n) ;;
  e' <- lift (not_null_insert "email" e) ;;
  if existsb (fun u => u_email u =? e') (users t)
  then raise (duplicate_entry e' "users.email")
  else
    id <- gets users_auto ;;
    now <- gets clock ;;
    modify (set_users_auto (id + 1)%Z) ;;
    ret (id, Tables (users t ++ [UserRow id n' e' now now]) (logs t)).

(** [UPDATE users SET name = %s, email = %s WHERE id = %s]; gives
    [rowcount], which counts the rows whose content changed
    (the connection does not ask for the found-rows count). *)
Definition sql_update_user (name email : sql_expr) (id : Z) (t : tables)
  : M (Z * tables) :=
  n <- lift (sql_scalar name) ;;
  e <- lift (sql_scalar email) ;;
  match find (has_id id) (users t) with
  | None => ret (0%Z, t)
  | Some old =>
      strict <- gets strict_mode ;;
      n' <- lift (not_null_update strict "name" n) ;;
      e' <- lift (not_null_update strict "email" e) ;;
      if (u_name old =? n') && (u_email old =? e')
      then ret (0%Z, t)
      else if existsb (fun u => (u_email u =? e') && negb (has_id id u)) (users t)
      then raise (duplicate_entry e' "users.email")
      else
        now <- gets clock ;;
        ret (1%Z, Tables (map (set_name_email id n' e' now) (users t)) (logs t))
  end.

(** [DELETE FROM users WHERE id = %s]; gives [rowcount]. *)
Definition sql_delete_user (id : Z) (t : tables) : M (Z * tables) :=
  ret (Z.of_nat (List.length (filter (has_id id) (users t))),
       Tables (filter (fun u => negb (has_id id u)) (users t)) (logs t)).

(** [SELECT * FROM users ORDER BY created_at DESC]; gives [fetchall()]. *)
Definition sql_select_users (t : tables) : M (list user_row * tables) :=
  ret (sort_desc u_created_at (users t), t).

(** [SELECT * FROM users WHERE id = %s]; gives [fetchone()]. *)
Definition sql_select_user (id : Z) (t : tables) : M (option user_row * tables) :=
  ret (find (has_id id) (users t), t).

(** [SELECT * FROM logs [WHERE level = %s] ORDER BY created_at DESC LIMIT %s];
    gives [fetchall()].  The server refuses a row count that is negative
    or does not fit 64 bits. *)
Definition sql_select_logs (level : option string) (limit : Z) (t : tables)
  : M (list log_row * tables) :=
  if (limit <? 0)%Z || (18446744073709551615 <? limit)%Z
  then raise (mysql_error ProgrammingError 1064 "You have an error in your SQL syntax")
  else
    let rows :=
      match level with
      | Some lv => filter (fun r => l_level r =? lv) (logs t)
      | None => logs t
      end in
    ret (firstn (Z.to_nat limit) (sort_desc l_created_at rows), t).

(** [INSERT INTO logs (level, message, instance_id) VALUES (%s, %s, %s)]. *)
Definition sql_insert_log (level message instance : string) (t : tables)
  : M (unit * tables) :=
  id <- gets logs_auto ;;
  now <- gets clock ;;
  modify (set_logs_auto (id + 1)%Z) ;;
  ret (tt, Tables (users t) (logs t ++ [LogRow id level message instance now])).

(** [CREATE TABLE IF NOT EXISTS ...]: the two tables exist in every world. *)
Definition sql_create_table (t : tables) : M (unit * tables) := ret (tt, t).

(** The connection object behind a handle, which must still be open. *)
Definition conn_find (c : nat) : M connection :=
  fun w =>
    match conn_get c (conns w) with
    | Some cn =>
        if c_open cn then (inr cn, w)
        else (inl (mysql_error InterfaceError 0 ""), w)
    | None => (inl (mysql_error InterfaceError 0 ""), w)
    end.

(** [cursor.execute] once its parameters are SQL text: a round trip, then
    the statement runs on the transaction's view of the tables. *)
Definition query {A} (c : nat) (stmt : tables -> M (A * tables)) : M A :=
  cn <- conn_find c ;;
  driver_call ;;
  r <- stmt (c_txn cn) ;;
  modify (fun w => set_conns (conn_put c (Conn true (snd r)) (conns w)) (next_conn w) w) ;;
  ret (fst r).

(** [conn.commit()]: publishes the transaction's view. *)
Definition commit (c : nat) : M unit :=
  cn <- conn_find c ;;
  driver_call ;;
  modify (set_committed (c_txn cn)).

(** [conn.close()]: no error reaches the caller unless the connection was
    closed before; what was not committed is dropped with the connection. *)
Definition close (c : nat) : M unit :=
  fun w =>
    match conn_get c (conns w) with
    | Some cn =>
        if c_open cn
        then (inr tt, set_conns (conn_put c (Conn false (c_txn cn)) (conns w)) (next_conn w) w)
        else (inl (Exn MySQLError "Already closed"), w)
    | None => (inl (Exn MySQLError "Already closed"), w)
    end.

(* ================================================================== *)
(** ** [app.py] *)

(** What Flask hands to a view: the outcome of [request.get_json()] (the
    parsed body, or the exception raised on a body that does not parse)
    and the two query parameters [get_logs] reads. *)
Inductive int_arg : Type :=
| ArgAbsent               (* the key is not in the query string *)
| ArgNotInt               (* [int(value)] raised ValueError *)
| ArgInt (z : Z).

Record request : Type := Request {
  get_json : result pyval;
  arg_limit : int_arg;
  arg_level : option string
}.

(** [request.args.get(key, default, type=int)]. *)
Definition args_get_int (a : int_arg) (default : Z) : Z :=
  match a with
  | ArgInt z => z
  | ArgAbsent | ArgNotInt => default
  end.

(** A view's return value: [jsonify(body), status]. *)
Definition response : Type := (pyval * Z)%type.

Definition jsonify (kvs : list (string * pyval)) : pyval := PDict kvs.

(** [data.get(key)]: only a dict has the method. *)
Definition dict_get (data : pyval) (k : string) : M pyval :=
  match data with
  | PDict kvs => ret (field k kvs)
  | _ =>
      raise (Exn AttributeError
               ("'" ++ type_name data ++ "' object has no attribute 'get'"))
  end.

(** Rows as the [DictCursor] returns them. *)
Definition user_dict (u : user_row) : pyval :=
  PDict [("id", PInt (u_id u)); ("name", PStr (u_name u));
         ("email", PStr (u_email u)); ("created_at", PTime (u_created_at u));
         ("updated_at", PTime (u_updated_at u))].

Definition log_dict (r : log_row) : pyval :=
  PDict [("id", PInt (l_id r)); ("level", PStr (l_level r));
         ("message", PStr (l_message r));
         ("instance_id", PStr (l_instance_id r));
         ("created_at", PTime (l_created_at r))].

Definition error_body (msg : string) : pyval := jsonify [("error", PStr msg)].

(** The [cursor.execute] calls of the module.  The driver converts the
    parameters before anything is sent.  [with conn.cursor() as cursor]
    itself does not talk to the server and is not represented. *)
Definition execute_create_table (c : nat) : M unit :=
  query c sql_create_table.

Definition execute_insert_log (c : nat) (level message instance : string) : M unit :=
  query c (sql_insert_log level message instance).

Definition execute_select_users (c : nat) : M (list user_row) :=
  query c sql_select_users.

Definition execute_insert_user (c : nat) (name email : pyval) : M Z :=
  n <- lift (literal name) ;;
  e <- lift (literal email) ;;
  query c (sql_insert_user n e).

Definition execute_select_user (c : nat) (user_id : Z) : M (option user_row) :=
  query c (sql_select_user user_id).

Definition execute_update_user (c : nat) (name email : pyval) (user_id : Z) : M Z :=
  n <- lift (literal name) ;;
  e <- lift (literal email) ;;
  query c (sql_update_user n e user_id).

Definition execute_delete_user (c : nat) (user_id : Z) : M Z :=
  query c (sql_delete_user user_id).

Definition execute_select_logs (c : nat) (level : option string) (limit : Z)
  : M (list log_row) :=
  query c (sql_select_logs level limit).

Definition get_db_connection : M nat :=
  try_except pymysql_connect
    (fun e =>
       logger_write ("Database connection error: " ++ exn_str e) ;;
       raise e).

Definition init_database : M unit :=
  try_except
    (conn <- get_db_connection ;;
     execute_create_table conn ;;
     execute_create_table conn ;;
     commit conn ;;
     close conn ;;
     logger_write "Database initialized successfully")
    (fun e =>
       logger_write ("Database initialization error: " ++ exn_str e) ;;
       raise e).

Definition log_event (level message : string) : M unit :=
  modify (fun w => set_audit_calls (audit_calls w ++ [(level, message)]) w) ;;
  try_except
    (conn <- get_db_connection ;;
     instance <- gets (fun w => INSTANCE_ID (env w)) ;;
     execute_insert_log conn level message instance ;;
     commit conn ;;
     close conn)
    (fun e => logger_write ("Logging error: " ++ exn_str e)).

Definition home : M response :=
  log_event "INFO" "Home endpoint accessed" ;;
  cfg <- gets env ;;
  now <- gets clock ;;
  ret (jsonify [("message", PStr "Welcome to Two-Tier Web Application");
                ("status", PStr "healthy");
                ("instance_id", PStr (INSTANCE_ID cfg));
                ("timestamp", PStr (isoformat now));
                ("database_host", PStr (DB_HOST cfg))], 200%Z).

Definition health : M response :=
  try_except
    (conn <- get_db_connection ;;
     close conn ;;
     log_event "INFO" "Health check passed" ;;
     cfg <- gets env ;;
     now <- gets clock ;;
     ret (jsonify [("status", PStr "healthy");
                   ("database", PStr "connected");
                   ("instance_id", PStr (INSTANCE_ID cfg));
                   ("timestamp", PStr (isoformat now))], 200%Z))
    (fun e =>
       log_event "ERROR" ("Health check failed: " ++ exn_str e) ;;
       cfg <- gets env ;;
       now <- gets clock ;;
       ret (jsonify [("status", PStr "unhealthy");
                     ("database", PStr (exn_str e));
                     ("instance_id", PStr (INSTANCE_ID cfg));
                     ("timestamp", PStr (isoformat now))], 500%Z)).

Definition get_users : M response :=
  try_except
    (conn <- get_db_connection ;;
     rows <- execute_select_users conn ;;
     close conn ;;
     log_event "INFO"
       ("Retrieved " ++ dec (Z.of_nat (List.length rows)) ++ " users") ;;
     cfg <- gets env ;;
     ret (jsonify [("users", PList (map user_dict rows));
                   ("count", PInt (Z.of_nat (List.length rows)));
                   ("instance_id", PStr (INSTANCE_ID cfg))], 200%Z))
    (fun e =>
       log_event "ERROR" ("Error retrieving users: " ++ exn_str e) ;;
       ret (error_body (exn_str e), 500%Z)).

Definition create_user (req : request) : M response :=
  try_except
    (data <- lift (get_json req) ;;
     if negb (truthy data)
     then ret (error_body "No data provided", 400%Z)
     else
       name <- dict_get data "name" ;;
       email <- dict_get data "email" ;;
       if negb (truthy name) || negb (truthy email)
       then ret (error_body "Name and email are required", 400%Z)
       else
         conn <- get_db_connection ;;
         user_id <- execute_insert_user conn name email ;;
         commit conn ;;
         close conn ;;
         log_event "INFO"
           ("Created user: " ++ py_str name ++ " (" ++ py_str email ++ ")") ;;
         cfg <- gets env ;;
         ret (jsonify [("message", PStr "User created successfully");
                       ("user_id", PInt user_id);
                       ("instance_id", PStr (INSTANCE_ID cfg))], 201%Z))
    (fun e =>
       if is_IntegrityError e
       then
         if str_contains "Duplicate entry" (exn_str e)
         then ret (error_body "Email already exists", 409%Z)
         else ret (error_body (exn_str e), 500%Z)
       else
         log_event "ERROR" ("Error creating user: " ++ exn_str e) ;;
         ret (error_body (exn_str e), 500%Z)).

Definition get_user (user_id : Z) : M response :=
  try_except
    (conn <- get_db_connection ;;
     row <- execute_select_user conn user_id ;;
     close conn ;;
     match row with
     | None => ret (error_body "User not found", 404%Z)
     | Some u =>
         log_event "INFO" ("Retrieved user: " ++ dec user_id) ;;
         cfg <- gets env ;;
         ret (jsonify [("user", user_dict u);
                       ("instance_id", PStr (INSTANCE_ID cfg))], 200%Z)
     end)
    (fun e =>
       log_event "ERROR"
         ("Error retrieving user " ++ dec user_id ++ ": " ++ exn_str e) ;;
       ret (error_body (exn_str e), 500%Z)).

Definition update_user (user_id : Z) (req : request) : M response :=
  try_except
    (data <- lift (get_json req) ;;
     if negb (truthy data)
     then ret (error_body "No data provided", 400%Z)
     else
       name <- dict_get data "name" ;;
       email <- dict_get data "email" ;;
       conn <- get_db_connection ;;
       rowcount <- execute_update_user conn name email user_id ;;
       if (rowcount =? 0)%Z
       then
         close conn ;;
         ret (error_body "User not found", 404%Z)
       else
         commit conn ;;
         close conn ;;
         log_event "INFO" ("Updated user: " ++ dec user_id) ;;
         cfg <- gets env ;;
         ret (jsonify [("message", PStr "User updated successfully");
                       ("instance_id", PStr (INSTANCE_ID cfg))], 200%Z))
    (fun e =>
       if is_IntegrityError e
       then
         if str_contains "Duplicate entry" (exn_str e)
         then ret (error_body "Email already exists", 409%Z)
         else ret (error_body (exn_str e), 500%Z)
       else
         log_event "ERROR"
           ("Error updating user " ++ dec user_id ++ ": " ++ exn_str e) ;;
         ret (error_body (exn_str e), 500%Z)).

Definition delete_user (user_id : Z) : M response :=
  try_except
    (conn <- get_db_connection ;;
     rowcount <- execute_delete_user conn user_id ;;
     if (rowcount =? 0)%Z
     then
       close conn ;;
       ret (error_body "User not found", 404%Z)
     else
       commit conn ;;
       close conn ;;
       log_event "INFO" ("Deleted user: " ++ dec user_id) ;;
       cfg <- gets env ;;
       ret (jsonify [("message", PStr "User deleted successfully");
                     ("instance_id", PStr (INSTANCE_ID cfg))], 200%Z))
    (fun e =>
       log_event "ERROR"
         ("Error deleting user " ++ dec user_id ++ ": " ++ exn_str e) ;;
       ret (error_body (exn_str e), 500%Z)).

Definition get_logs (req : request) : M response :=
  try_except
    (let limit := args_get_int (arg_limit req) 100 in
     let level := arg_level req in
     conn <- get_db_connection ;;
     rows <- (match level with
              | Some lv =>
                  if truthy (PStr lv)
                  then execute_select_logs conn (Some lv) limit
                  else execute_select_logs conn None limit
              | None => execute_select_logs conn None limit
              end) ;;
     close conn ;;
     cfg <- gets env ;;
     ret (jsonify [("logs", PList (map log_dict rows));
                   ("count", PInt (Z.of_nat (List.length rows)));
                   ("instance_id", PStr (INSTANCE_ID cfg))], 200%Z))
    (fun e => ret (error_body (exn_str e), 500%Z)).

Definition info : M response :=
  cfg <- gets env ;;
  now <- gets clock ;;
  ret (jsonify [("application", PStr "Two-Tier Web Application");
                ("version", PStr "1.0.0");
                ("instance_id", PStr (INSTANCE_ID cfg));
                ("database_host", PStr (DB_HOST cfg));
                ("database_name", PStr (DB_NAME cfg));
                ("timestamp", PStr (isoformat now))], 200%Z).

(* ================================================================== *)
(** ** Vocabulary of the statements *)

(** [wp m Q w]: running [m] from [w] ends in a result and a world that
    satisfy [Q]. *)
Definition wp {A} (m : M A) (Q : result A -> world -> Prop) (w : world) : Prop :=
  Q (fst (m w)) (snd (m w)).

(** [m] leaves the observation [obs] of the world as it found it. *)
Definition preserves {X A} (obs : world -> X) (m : M A) : Prop :=
  forall w, obs (snd (m w)) = obs w.

(** A body member that is a JSON string or is null or absent. *)
Definition text_or_null (v : pyval) : bool :=
  match v with
  | PNone | PStr _ => true
  | _ => false
  end.

(** The text a member leaves in its column: itself, or the empty string
    when it is null or absent. *)
Definition stored (v : pyval) : string :=
  match v with
  | PStr s => s
  | _ => ""
  end.

(** The [count] member of a JSON response. *)
Definition response_count (r : result response) : option pyval :=
  match r with
  | inr (PDict kvs, _) => assoc "count" kvs
  | _ => None
  end.

Definition desc_by {A} (key : A -> Z) (a b : A) : Prop := (key a >= key b)%Z.

(** [ORDER BY created_at DESC] on log rows. *)
Definition newest_first : log_row -> log_row -> Prop := desc_by l_created_at.

(** What a view adds to the calls of [log_event], by the status it
    answers: one INFO event with 200 and 201, nothing with 400, 404 and
    409, one ERROR event with 500. *)
Definition audited (st : Z) (before after : list (string * string)) : Prop :=
  if ((st =? 200) || (st =? 201))%Z
  then exists m, after = (before ++ [("INFO", m)])%list
  else if ((st =? 400) || (st =? 404) || (st =? 409))%Z
  then after = before
  else st = 500%Z /\ exists m, after = (before ++ [("ERROR", m)])%list.

(** The view returns a response, and its calls of [log_event] follow
    [rule]. *)
Definition answers (view : M response) (w : world)
           (rule : Z -> list (string * string) -> list (string * string) -> Prop)
  : Prop :=
  exists body st,
    fst (view w) = inr (body, st) /\
    rule st (audit_calls w) (audit_calls (snd (view w))).

(** Create and Update answer 500 from two [except] clauses, which the
    status does not tell apart.  Their [try] block and their [except]
    clauses are given below as terms of their own, so that a statement
    can speak of the exception the block raised. *)

(** The [try] block of [create_user] (app.py 144-169). *)
Definition create_user_try (req : request) : M response :=
  data <- lift (get_json req) ;;
  if negb (truthy data)
  then ret (error_body "No data provided", 400%Z)
  else
    name <- dict_get data "name" ;;
    email <- dict_get data "email" ;;
    if negb (truthy name) || negb (truthy email)
    then ret (error_body "Name and email are required", 400%Z)
    else
      conn <- get_db_connection ;;
      user_id <- execute_insert_user conn name email ;;
      commit conn ;;
      close conn ;;
      log_event "INFO"
        ("Created user: " ++ py_str name ++ " (" ++ py_str email ++ ")") ;;
      cfg <- gets env ;;
      ret (jsonify [("message", PStr "User created successfully");
                    ("user_id", PInt user_id);
                    ("instance_id", PStr (INSTANCE_ID cfg))], 201%Z).

(** The [try] block of [update_user] (app.py 204-227). *)
Definition update_user_try (user_id : Z) (req : request) : M response :=
  data <- lift (get_json req) ;;
  if negb (truthy data)
  then ret (error_body "No data provided", 400%Z)
  else
    name <- dict_get data "name" ;;
    email <- dict_get data "email" ;;
    conn <- get_db_connection ;;
    rowcount <- execute_update_user conn name email user_id ;;
    if (rowcount =? 0)%Z
    then
      close conn ;;
      ret (error_body "User not found", 404%Z)
    else
      commit conn ;;
      close conn ;;
      log_event "INFO" ("Updated user: " ++ dec user_id) ;;
      cfg <- gets env ;;
      ret (jsonify [("message", PStr "User updated successfully");
                    ("instance_id", PStr (INSTANCE_ID cfg))], 200%Z).

(** The [except] clauses of [create_user] (170-176) and of [update_user]
    (228-234); [describe] makes the message of the ERROR event from the
    text of the exception. *)
Definition except_clauses (describe : string -> string) (e : exn)
  : M response :=
  if is_IntegrityError e
  then
    if str_contains "Duplicate entry" (exn_str e)
    then ret (error_body "Email already exists", 409%Z)
    else ret (error_body (exn_str e), 500%Z)
  else
    log_event "ERROR" (describe (exn_str e)) ;;
    ret (error_body (exn_str e), 500%Z).

(** What [view] does with the exception [x] its [try] block raised in
    the world [w1]: the duplicate IntegrityError is answered 409 and
    nothing more happens; an exception that is not an IntegrityError is
    answered 500 with its text after exactly one ERROR event.  For an
    IntegrityError that is not a duplicate, only the answer is stated. *)
Definition handled (view : M response) (w : world) (x : exn) (w1 : world)
           (describe : string -> string) : Prop :=
  if is_IntegrityError x
  then
    if str_contains "Duplicate entry" (exn_str x)
    then view w = (inr (error_body "Email already exists", 409%Z), w1)
    else fst (view w) = inr (error_body (exn_str x), 500%Z)
  else
    fst (view w) = inr (error_body (exn_str x), 500%Z) /\
    audit_calls (snd (view w)) =
      (audit_calls w ++ [("ERROR", describe (exn_str x))])%list.

(** [view] is [try_block] under its handlers: what [try_block] returns
    is the answer, with a status of [oks] and the events of that status;
    what it raises, it raises before any event, and is [handled]. *)
Definition tried (view try_block : M response) (w : world)
           (oks : list Z) (describe : string -> string) : Prop :=
  match try_block w with
  | (inr (body, st), w1) =>
      view w = (inr (body, st), w1) /\
      In st oks /\
      audited st (audit_calls w) (audit_calls w1)
  | (inl x, w1) =>
      audit_calls w1 = audit_calls w /\ handled view w x w1 describe
  end.

(** The messages of the ERROR events of Create and Update. *)
Definition creating_failed (text : string) : string :=
  "Error creating user: " ++ text.

Definition updating_failed (user_id : Z) (text : string) : string :=
  "Error updating user " ++ dec user_id ++ ": " ++ text.

(** Worlds and requests of the concrete scenarios. *)
Definition cfg0 : config := Config "i-1" "db" "webappdb".

Definition world0 : world :=
  World cfg0 1000 true (Tables [] []) 1 1 [] 0 [] [] [].

Definition john : user_row := UserRow 1 "John Doe" "john@example.com" 1000 1000.

Definition world_john : world :=
  World cfg0 2000 true (Tables [john] []) 2 1 [] 0 [] [] [].

(** The same table on a server that is not in strict mode. *)
Definition world_lenient : world :=
  World cfg0 2000 false (Tables [john] []) 2 1 [] 0 [] [] [].

Definition json_request (v : pyval) : request := Request (inr v) ArgAbsent None.

Definition john_body : list (string * pyval) :=
  [("name", PStr "John Doe"); ("email", PStr "john@example.com")].

Definition john_request : request := json_request (PDict john_body).

Definition name_only_body : list (string * pyval) := [("name", PStr "X")].

Definition name_only_request : request := json_request (PDict name_only_body).

Definition empty_request : request := json_request (PDict []).

Definition updated_request : request :=
  json_request (PDict [("name", PStr "John Updated");
                       ("email", PStr "john.updated@example.com")]).

(** The world once the clock shows [t]. *)
Definition at_time (t : Z) (w : world) : world :=
  World (env w) t (strict_mode w) (committed w) (users_auto w) (logs_auto w)
        (conns w) (next_conn w) (faults w) (diag w) (audit_calls w).

(** A world whose store refuses the next connection. *)
Definition world_unreachable : world :=
  set_faults [Some (mysql_error OperationalError 2003
                      "Can't connect to MySQL server on 'db'")] world0.

(** ** Vocabulary of the further properties *)

(** An observation of the world that the driver's bookkeeping (the
    connection objects, the failure plan, the logger, the counters) does
    not show in. *)
Definition inert {X} (obs : world -> X) : Prop :=
  (forall cs n w, obs (set_conns cs n w) = obs w) /\
  (forall fs w, obs (set_faults fs w) = obs w) /\
  (forall d w, obs (set_diag d w) = obs w) /\
  (forall n w, obs (set_users_auto n w) = obs w) /\
  (forall n w, obs (set_logs_auto n w) = obs w).

(** An observation that nothing a view does can change. *)
Definition fixed {X} (obs : world -> X) : Prop :=
  inert obs /\
  (forall t w, obs (set_committed t w) = obs w) /\
  (forall a w, obs (set_audit_calls a w) = obs w).

(** The configuration, the clock and the mode of the server. *)
Definition setting (w : world) : config * Z * bool :=
  (env w, clock w, strict_mode w).

(** The [users] table as committed. *)
Definition users_table (w : world) : list user_row := users (committed w).

(** A view fails with [resp] after recording [event], and [users] is as
    it was. *)
Definition fails_with (view : M response) (w : world)
           (resp : response) (event : string * string) : Prop :=
  fst (view w) = inr resp /\
  audit_calls (snd (view w)) = (audit_calls w ++ [event])%list /\
  users (committed (snd (view w))) = users (committed w).

(** The answer of the [except IntegrityError] branch of Create and
    Update. *)
Definition integrity_response (x : exn) : response :=
  if str_contains "Duplicate entry" (exn_str x)
  then (error_body "Email already exists", 409%Z)
  else (error_body (exn_str x), 500%Z).

Definition is_dict (v : pyval) : bool :=
  match v with
  | PDict _ => true
  | _ => false
  end.

(** The text of the AttributeError that [data.get] raises on a value that
    is not a dict. *)
Definition no_get_attribute (data : pyval) : string :=
  "'" ++ type_name data ++ "' object has no attribute 'get'".

(** In every world the view returns a response whose status is one of
    [codes]. *)
Definition answers_among (view : M response) (codes : list Z) : Prop :=
  forall w, exists body st, fst (view w) = inr (body, st) /\ In st codes.

(** The view leaves the [users] table as it was, in every world. *)
Definition never_writes_users (view : M response) : Prop :=
  forall w, users_table (snd (view w)) = users_table w.

(** The view leaves the [users] table as it was unless it answers [ok]. *)
Definition writes_users_only_with (view : M response) (ok : Z) : Prop :=
  forall w, exists body st,
    fst (view w) = inr (body, st) /\
    (st <> ok -> users_table (snd (view w)) = users_table w).

(** The connection object behind the handle is there and open. *)
Definition is_open (c : nat) (w : world) : Prop :=
  exists cn, conn_get c (conns w) = Some cn /\ c_open cn = true.

(** The constraints the [CREATE TABLE] of [init_database] puts on
    [users]: [id] is a key below the AUTO_INCREMENT counter, [email] is
    unique. *)
Definition schema_ok (w : world) : Prop :=
  NoDup (map u_id (users_table w)) /\
  NoDup (map u_email (users_table w)) /\
  (forall u, In u (users_table w) -> (u_id u < users_auto w)%Z).

(** The first [n] round trips of the plan succeed. *)
Fixpoint plan_clear (n : nat) (fs : list (option exn)) : bool :=
  match n, fs with
  | O, _ => true
  | S _, [] => true
  | S n', None :: r => plan_clear n' r
  | S _, Some _ :: _ => false
  end.

(** The rows of [logs] that [get_logs] selects from, given the level
    parameter: [if level] takes an empty value for no filter. *)
Definition matching_logs (level : option string) (l : list log_row)
  : list log_row :=
  match level with
  | Some lv => if lv =? "" then l else filter (fun r => l_level r =? lv) l
  | None => l
  end.

(** More worlds and requests for the concrete runs. *)
Definition jane : user_row := UserRow 2 "Jane Smith" "jane@example.com" 1500 1500.

Definition world_two : world :=
  World cfg0 2000 true (Tables [john; jane] []) 3 1 [] 0 [] [] [].

Definition updated_body : list (string * pyval) :=
  [("name", PStr "John Updated"); ("email", PStr "john.updated@example.com")].

Definition collide_body : list (string * pyval) :=
  [("name", PStr "John Doe"); ("email", PStr "jane@example.com")].

Definition collide_request : request := json_request (PDict collide_body).

Definition connect_refused : exn :=
  mysql_error OperationalError 2003 "Can't connect to MySQL server on 'db'".

Definition lock_timeout : exn :=
  mysql_error OperationalError 1205 "Lock wait timeout exceeded".

Definition primary_key_clash : exn := duplicate_entry "1" "users.PRIMARY".

(** Worlds whose store accepts the connection and fails the statement. *)
Definition world_statement_times_out : world :=
  set_faults [None; Some lock_timeout] world_john.

Definition world_statement_clashes : world :=
  set_faults [None; Some primary_key_clash] world_john.

Definition bad_json : exn :=
  Exn BadRequest "400 Bad Request: Failed to decode JSON object".

Definition unparsable_request : request := Request (inl bad_json) ArgAbsent None.

Definition list_request : request := json_request (PList [PInt 1]).

Definition negative_limit_request : request :=
  Request (inr PNone) (ArgInt (-1)) None.

Definition three_logs : list log_row :=
  [LogRow 1 "INFO" "a" "i-1" 10; LogRow 2 "ERROR" "b" "i-1" 20;
   LogRow 3 "INFO" "c" "i-1" 30].

Definition world_logs : world :=
  World cfg0 2000 true (Tables [john] three_logs) 2 4 [] 0 [] [] [].

Definition newest_info_request : request :=
  Request (inr PNone) (ArgInt 1) (Some "INFO").

(** ** Vocabulary of the outcomes of Update and List logs *)

(** The first of the columns [name] and [email] for which the body of a
    PUT gives null or nothing. *)
Definition null_column (kvs : list (string * pyval)) : option string :=
  match field "name" kvs, field "email" kvs with
  | PNone, _ => Some "name"
  | _, PNone => Some "email"
  | _, _ => None
  end.

(** The column that makes a server in strict mode refuse the UPDATE. *)
Definition refused_column (w : world) (kvs : list (string * pyval))
  : option string :=
  if strict_mode w then null_column kvs else None.

(** The reply of a PUT that went through. *)
Definition updated_reply (w : world) : response :=
  (jsonify [("message", PStr "User updated successfully");
            ("instance_id", PStr (INSTANCE_ID (env w)))], 200%Z).

(** When GET /logs reaches its 200: the connection and the SELECT, its
    two round trips, succeed, and the server accepts the row count. *)
Definition logs_served (req : request) (w : world) : bool :=
  plan_clear 2 (faults w) &&
  (0 <=? args_get_int (arg_limit req) 100)%Z &&
  (args_get_int (arg_limit req) 100 <=? 18446744073709551615)%Z.

(** GET /logs?level= : the parameter is there and holds the empty text. *)
Definition empty_level_request : request :=
  Request (inr PNone) ArgAbsent (Some "").

(* ================================================================== *)
(** * Properties *)

(** ** Rules of the monad *)

Lemma wp_bind {A B} (m : M A) (f : A -> M B) Q w :
  wp m (fun r w1 => match r with
                    | inl e => Q (inl e) w1
                    | inr a => wp (f a) Q w1
                    end) w ->
  wp (bind m f) Q w.
Proof. unfold wp, bind. destruct (m w) as [[e|a] w1]; auto. Qed.

Lemma wp_try {A} (m : M A) (h : exn -> M A) Q w :
  wp m (fun r w1 => match r with
                    | inl e => wp (h e) Q w1
                    | inr a => Q (inr a) w1
                    end) w ->
  wp (try_except m h) Q w.
Proof. unfold wp, try_except. destruct (m w) as [[e|a] w1]; auto. Qed.

Lemma wp_ret {A} (a : A) (Q : result A -> world -> Prop) w :
  Q (inr a) w -> wp (ret a) Q w.
Proof. auto. Qed.

Lemma wp_gets {A} (f : world -> A) (Q : result A -> world -> Prop) w :
  Q (inr (f w)) w -> wp (gets f) Q w.
Proof. auto. Qed.

Lemma wp_lift {A} (r : result A) (Q : result A -> world -> Prop) w :
  Q r w -> wp (lift r) Q w.
Proof. auto. Qed.

Lemma wp_preserves {X A} (obs : world -> X) (m : M A) Q w :
  preserves obs m -> (forall r w1, obs w1 = obs w -> Q r w1) -> wp m Q w.
Proof. intros P H. apply H, P. Qed.

Section Frame.
Context {X : Type} (obs : world -> X).

Lemma preserves_ret {A} (a : A) : preserves obs (ret a).
Proof. intro; reflexivity. Qed.

Lemma preserves_raise {A} e : preserves obs (@raise A e).
Proof. intro; reflexivity. Qed.

Lemma preserves_lift {A} (r : result A) : preserves obs (lift r).
Proof. intro; reflexivity. Qed.

Lemma preserves_gets {A} (f : world -> A) : preserves obs (gets f).
Proof. intro; reflexivity. Qed.

Lemma preserves_bind {A B} (m : M A) (f : A -> M B) :
  preserves obs m -> (forall a, preserves obs (f a)) -> preserves obs (bind m f).
Proof.
  intros Hm Hf w. unfold bind. specialize (Hm w).
  destruct (m w) as [[e|a] w1]; cbn in *; [assumption|].
  rewrite Hf. assumption.
Qed.

Lemma preserves_try {A} (m : M A) (h : exn -> M A) :
  preserves obs m -> (forall e, preserves obs (h e)) ->
  preserves obs (try_except m h).
Proof.
  intros Hm Hh w. unfold try_except. specialize (Hm w).
  destruct (m w) as [[e|a] w1]; cbn in *; [|assumption].
  rewrite Hh. assumption.
Qed.

Lemma preserves_modify (f : world -> world) :
  (forall w, obs (f w) = obs w) -> preserves obs (modify f).
Proof. intros H w. apply H. Qed.

Lemma preserves_if {A} (b : bool) (m1 m2 : M A) :
  preserves obs m1 -> preserves obs m2 -> preserves obs (if b then m1 else m2).
Proof. destruct b; auto. Qed.

End Frame.

Create HintDb frame.

#[local] Hint Resolve preserves_ret preserves_raise preserves_lift preserves_gets
  preserves_bind preserves_try preserves_if : frame.

(** ** Strings *)

Lemma prefix_app (p s : string) : String.prefix p (p ++ s) = true.
Proof.
  induction p as [|c p IH]; cbn; [destruct s; reflexivity|].
  destruct (ascii_dec c c); [assumption | congruence].
Qed.

Lemma str_contains_app (p a b : string) : str_contains p (a ++ p ++ b) = true.
Proof.
  induction a as [|c a IH].
  - cbn [append].
    destruct (p ++ b) eqn:E; cbn [str_contains]; rewrite <- ?E, prefix_app;
      reflexivity.
  - cbn [append str_contains]. rewrite IH. apply orb_true_r.
Qed.

(** The text of a uniqueness violation says "Duplicate entry", whatever
    the value and the key are. *)
Lemma duplicate_entry_contains v k :
  str_contains "Duplicate entry" (exn_str (duplicate_entry v k)) = true.
Proof.
  unfold duplicate_entry, mysql_error. cbn [exn_str].
  change ("(" ++ dec 1062 ++ ", " ++ dq ++
          ("Duplicate entry '" ++ v ++ "' for key '" ++ k ++ "'") ++ dq ++ ")")
    with (("(" ++ dec 1062 ++ ", " ++ dq) ++ "Duplicate entry" ++
          (" '" ++ v ++ "' for key '" ++ k ++ "'") ++ dq ++ ")").
  apply str_contains_app.
Qed.

(** ** Sorting and selecting rows *)

Section SortDesc.
Context {A : Type} (key : A -> Z).

Lemma insert_desc_length x l :
  List.length (insert_desc key x l) = S (List.length l).
Proof.
  induction l as [|y r IH]; cbn; [reflexivity|].
  destruct (key x <? key y)%Z; cbn; auto.
Qed.

Lemma sort_desc_length l : List.length (sort_desc key l) = List.length l.
Proof.
  induction l as [|x r IH]; cbn; [reflexivity|].
  rewrite insert_desc_length; auto.
Qed.

Lemma insert_desc_In x y l : In y (insert_desc key x l) <-> y = x \/ In y l.
Proof.
  induction l as [|z r IH]; cbn; [intuition congruence|].
  destruct (key x <? key z)%Z; cbn; rewrite ?IH; intuition congruence.
Qed.

Lemma sort_desc_In y l : In y (sort_desc key l) <-> In y l.
Proof.
  induction l as [|x r IH]; cbn; [reflexivity|].
  rewrite insert_desc_In, IH. intuition congruence.
Qed.

Lemma sort_desc_subset y l : In y (sort_desc key l) -> In y l.
Proof. apply sort_desc_In. Qed.

Lemma insert_desc_sorted x l :
  StronglySorted (desc_by key) l ->
  StronglySorted (desc_by key) (insert_desc key x l).
Proof.
  induction 1 as [|y r Hs IH Hall]; cbn; [repeat constructor|].
  destruct (key x <? key y)%Z eqn:E.
  - constructor; [assumption|].
    apply Forall_forall. intros z Hz. apply insert_desc_In in Hz.
    destruct Hz as [->|Hz].
    + apply Z.ltb_lt in E. unfold desc_by. lia.
    + rewrite Forall_forall in Hall. auto.
  - apply Z.ltb_ge in E. constructor; [constructor; assumption|].
    constructor; [unfold desc_by; lia|].
    rewrite Forall_forall in Hall |- *. intros z Hz.
    specialize (Hall z Hz). unfold desc_by in *. lia.
Qed.

Lemma sort_desc_sorted l : StronglySorted (desc_by key) (sort_desc key l).
Proof.
  induction l as [|x r IH]; cbn; [constructor|]. apply insert_desc_sorted, IH.
Qed.

End SortDesc.

Section Firstn.
Context {A : Type}.

Lemma firstn_subset n (l : list A) x : In x (firstn n l) -> In x l.
Proof.
  revert n. induction l as [|y r IH]; intros [|n]; cbn; try tauto.
  intros [->|H]; [left; reflexivity | right; eauto].
Qed.

Lemma firstn_sorted (R : A -> A -> Prop) n l :
  StronglySorted R l -> StronglySorted R (firstn n l).
Proof.
  intros H. revert n.
  induction H as [|x r Hs IH Hall]; intros [|n]; cbn; try constructor.
  - apply IH.
  - rewrite Forall_forall in *. intros z Hz. apply Hall.
    apply (firstn_subset n r). exact Hz.
Qed.

End Firstn.

(** ** Looking a user up by id *)

Lemma find_none_absent (id : Z) (l : list user_row) :
  (forall u, In u l -> u_id u <> id) -> find (has_id id) l = None.
Proof.
  intros H. destruct (find (has_id id) l) as [u|] eqn:E; [|reflexivity].
  apply find_some in E. destruct E as [Hin Hid]. apply Z.eqb_eq in Hid.
  exfalso. exact (H u Hin Hid).
Qed.

Lemma find_some_present (id : Z) (l : list user_row) :
  (exists u, In u l /\ u_id u = id) -> exists u, find (has_id id) l = Some u.
Proof.
  intros (u & Hin & Hid). destruct (find (has_id id) l) as [u'|] eqn:E; [eauto|].
  exfalso. pose proof (find_none _ _ E u Hin) as Hno. unfold has_id in Hno.
  apply Z.eqb_neq in Hno. contradiction.
Qed.

Lemma filter_find_nonzero (id : Z) (l : list user_row) u :
  find (has_id id) l = Some u ->
  (Z.of_nat (List.length (filter (has_id id) l)) =? 0)%Z = false.
Proof.
  intros E. apply find_some in E. destruct E as [Hin Hid].
  assert (Hf : In u (filter (has_id id) l)) by (apply filter_In; auto).
  destruct (filter (has_id id) l); [contradiction|]. reflexivity.
Qed.

Lemma filter_find_zero (id : Z) (l : list user_row) :
  find (has_id id) l = None -> filter (has_id id) l = [].
Proof.
  intros E. induction l as [|x r IH]; [reflexivity|].
  cbn in *. destruct (has_id id x); [discriminate|]. auto.
Qed.

Lemma find_after_delete (id : Z) (l : list user_row) :
  find (has_id id) (filter (fun u => negb (has_id id u)) l) = None.
Proof.
  induction l as [|x r IH]; [reflexivity|].
  cbn. destruct (has_id id x) eqn:E; cbn; [assumption|]. rewrite E. assumption.
Qed.

(** ** Running the handlers on a symbolic world *)

Create HintDb app.

#[local] Hint Unfold create_user update_user delete_user get_user get_users
  get_logs home health info log_event get_db_connection pymysql_connect
  execute_insert_log execute_insert_user execute_update_user
  execute_delete_user execute_select_user execute_select_users
  execute_select_logs query commit close conn_find dict_get
  sql_insert_log sql_insert_user sql_update_user sql_delete_user
  sql_select_user sql_select_users sql_select_logs
  try_except bind ret raise gets modify lift logger_write driver_call
  set_conns set_faults set_committed set_logs_auto set_users_auto set_diag
  set_audit_calls error_body jsonify : app.

Ltac sym :=
  repeat (cbn -[append dec str_contains isoformat];
          rewrite ?Nat.eqb_refl, ?duplicate_entry_contains, ?sort_desc_length).

Ltac stuck :=
  match goal with
  | |- context [match find ?p ?l with _ => _ end] => destruct (find p l) eqn:?
  | |- context [if ?b then _ else _] => is_var b; destruct b
  | |- context [if (?a && ?b)%bool then _ else _] => destruct (a && b)%bool eqn:?
  | |- context [if existsb ?p ?l then _ else _] => destruct (existsb p l) eqn:?
  end.

(** [log_event] on any world, whatever the store does: it returns, it is
    counted once, it never touches [users], and either the row is in
    [logs] or nothing was committed and the logger has the error. *)
Lemma log_event_spec level message w :
  exists w',
    log_event level message w = (inr tt, w') /\
    audit_calls w' = (audit_calls w ++ [(level, message)])%list /\
    users (committed w') = users (committed w) /\
    ((logs (committed w') =
        (logs (committed w) ++
           [LogRow (logs_auto w) level message (INSTANCE_ID (env w)) (clock w)])%list
      /\ diag w' = diag w)
     \/
     (committed w' = committed w /\
      exists e pre,
        diag w' = (diag w ++ pre ++ [("Logging error: " ++ exn_str e)%string])%list)).
Proof.
  destruct w as [cfg clk strict com ua la cs nc fs dg ac].
  autounfold with app.
  destruct fs as [|[e|] fs]; sym.
  - eexists; repeat split; auto.
  - eexists; repeat split; auto. right. split; auto.
    exists e, [("Database connection error: " ++ exn_str e)%string].
    rewrite <- app_assoc. reflexivity.
  - destruct fs as [|[e|] fs]; sym.
    + eexists; repeat split; auto.
    + eexists; repeat split; auto. right. split; auto. exists e, []. reflexivity.
    + destruct fs as [|[e|] fs]; sym.
      * eexists; repeat split; auto.
      * eexists; repeat split; auto. right. split; auto. exists e, []. reflexivity.
      * eexists; repeat split; auto.
Qed.

Lemma wp_log_event level message (Q : result unit -> world -> Prop) w :
  (forall w1, audit_calls w1 = (audit_calls w ++ [(level, message)])%list ->
              Q (inr tt) w1) ->
  wp (log_event level message) Q w.
Proof.
  intros H. unfold wp.
  destruct (log_event_spec level message w) as (w' & E & Ha & _).
  rewrite E. auto.
Qed.

(** ** Only [log_event] adds to the audit trail *)

Lemma audit_driver_call : preserves audit_calls driver_call.
Proof.
  intros w. unfold driver_call. destruct (faults w) as [|[e|] r]; reflexivity.
Qed.

Lemma audit_conn_find c : preserves audit_calls (conn_find c).
Proof.
  intros w. unfold conn_find.
  destruct (conn_get c (conns w)) as [cn|]; [|reflexivity].
  destruct (c_open cn); reflexivity.
Qed.

Lemma audit_close c : preserves audit_calls (close c).
Proof.
  intros w. unfold close.
  destruct (conn_get c (conns w)) as [cn|]; [|reflexivity].
  destruct (c_open cn); reflexivity.
Qed.

#[local] Hint Resolve audit_driver_call audit_conn_find audit_close : frame.

Lemma audit_get_db_connection : preserves audit_calls get_db_connection.
Proof.
  unfold get_db_connection, pymysql_connect, logger_write.
  apply preserves_try;
    [apply preserves_bind; auto with frame; intros; intro; reflexivity|].
  intros e. apply preserves_bind; auto with frame.
  apply preserves_modify. reflexivity.
Qed.

Lemma audit_commit c : preserves audit_calls (commit c).
Proof.
  unfold commit. repeat (apply preserves_bind; auto with frame; intros).
  apply preserves_modify. reflexivity.
Qed.

Lemma audit_query {A} c (stmt : tables -> M (A * tables)) :
  (forall t, preserves audit_calls (stmt t)) ->
  preserves audit_calls (query c stmt).
Proof.
  intros H. unfold query. repeat (apply preserves_bind; auto with frame; intros).
  apply preserves_modify. reflexivity.
Qed.

#[local] Hint Resolve audit_get_db_connection audit_commit audit_query : frame.

Lemma audit_sql_insert_user n e t : preserves audit_calls (sql_insert_user n e t).
Proof.
  unfold sql_insert_user.
  repeat (apply preserves_bind; auto with frame; intros).
  apply preserves_if; auto with frame.
  repeat (apply preserves_bind; auto with frame; intros).
  apply preserves_modify. reflexivity.
Qed.

Lemma audit_sql_update_user n e id t :
  preserves audit_calls (sql_update_user n e id t).
Proof.
  unfold sql_update_user.
  repeat (apply preserves_bind; auto with frame; intros).
  destruct (find (has_id id) (users t)); auto with frame.
  repeat (apply preserves_bind; auto with frame; intros).
Qed.

Lemma audit_sql_select_logs lv lim t :
  preserves audit_calls (sql_select_logs lv lim t).
Proof. unfold sql_select_logs. apply preserves_if; auto with frame. Qed.

#[local] Hint Resolve audit_sql_insert_user audit_sql_update_user
  audit_sql_select_logs : frame.

Lemma audit_execute_insert_user c n e :
  preserves audit_calls (execute_insert_user c n e).
Proof.
  unfold execute_insert_user.
  repeat (apply preserves_bind; auto with frame; intros).
Qed.

Lemma audit_execute_update_user c n e id :
  preserves audit_calls (execute_update_user c n e id).
Proof.
  unfold execute_update_user.
  repeat (apply preserves_bind; auto with frame; intros).
Qed.

Lemma audit_execute_delete_user c id :
  preserves audit_calls (execute_delete_user c id).
Proof. unfold execute_delete_user, sql_delete_user. auto with frame. Qed.

Lemma audit_execute_select_user c id :
  preserves audit_calls (execute_select_user c id).
Proof. unfold execute_select_user, sql_select_user. auto with frame. Qed.

Lemma audit_execute_select_users c :
  preserves audit_calls (execute_select_users c).
Proof. unfold execute_select_users, sql_select_users. auto with frame. Qed.

Lemma audit_execute_select_logs c lv lim :
  preserves audit_calls (execute_select_logs c lv lim).
Proof. unfold execute_select_logs. auto with frame. Qed.

Lemma audit_dict_get d k : preserves audit_calls (dict_get d k).
Proof. destruct d; cbn; auto with frame. Qed.

#[local] Hint Resolve audit_execute_insert_user audit_execute_update_user
  audit_execute_delete_user audit_execute_select_user
  audit_execute_select_users audit_execute_select_logs audit_dict_get : frame.

Ltac wp_step :=
  match goal with
  | |- wp (try_except _ _) _ _ => apply wp_try
  | |- wp (bind _ _) _ _ => apply wp_bind
  | |- wp (ret _) _ _ => apply wp_ret
  | |- wp (gets _) _ _ => apply wp_gets
  | |- wp (lift ?r) _ _ => apply wp_lift; destruct r
  | |- wp (log_event _ _) _ _ => apply wp_log_event; intros ? ?
  | |- wp (if ?b then _ else _) _ _ => destruct b eqn:?
  | |- wp (match ?x with _ => _ end) _ _ => destruct x eqn:?
  | |- wp _ _ _ =>
      apply (wp_preserves audit_calls);
      [solve [auto with frame] | intros [?|?] ? ?]
  end; cbn beta iota.

Ltac audit_leaf :=
  do 2 eexists; split; [reflexivity|]; cbn;
  repeat match goal with H : audit_calls _ = _ |- _ => rewrite H; clear H end;
  first [ reflexivity
        | eexists; reflexivity
        | split; [reflexivity | eexists; reflexivity] ].

Lemma answers_wp (view : M response) (w : world) rule :
  wp view (fun r w' => exists body st,
               r = inr (body, st) /\ rule st (audit_calls w) (audit_calls w')) w ->
  answers view w rule.
Proof. exact (fun H => H). Qed.

Lemma delete_user_audited id w : answers (delete_user id) w audited.
Proof. apply answers_wp. unfold delete_user. repeat wp_step; audit_leaf. Qed.

Lemma get_user_audited id w : answers (get_user id) w audited.
Proof. apply answers_wp. unfold get_user. repeat wp_step; audit_leaf. Qed.

Lemma get_users_audited w : answers get_users w audited.
Proof. apply answers_wp. unfold get_users. repeat wp_step; audit_leaf. Qed.

Lemma health_audited w : answers health w audited.
Proof. apply answers_wp. unfold health. repeat wp_step; audit_leaf. Qed.

(** Create and Update are their [try] block under their [except]
    clauses. *)
Lemma create_user_split (req : request) :
  create_user req =
  try_except (create_user_try req) (except_clauses creating_failed).
Proof. reflexivity. Qed.

Lemma update_user_split (user_id : Z) (req : request) :
  update_user user_id req =
  try_except (update_user_try user_id req)
             (except_clauses (updating_failed user_id)).
Proof. reflexivity. Qed.

Lemma tried_intro (view try_block : M response) (w : world)
      (oks : list Z) (describe : string -> string) :
  view = try_except try_block (except_clauses describe) ->
  wp try_block
     (fun r w1 =>
        match r with
        | inr (_, st) =>
            In st oks /\ audited st (audit_calls w) (audit_calls w1)
        | inl _ => audit_calls w1 = audit_calls w
        end) w ->
  tried view try_block w oks describe.
Proof.
  intros -> H. unfold wp in H. unfold tried, handled, try_except.
  destruct (try_block w) as [[x|[body st]] w1]; cbn [fst snd] in *.
  - split; [exact H|]. unfold except_clauses.
    destruct (is_IntegrityError x).
    + destruct (str_contains "Duplicate entry" (exn_str x)); reflexivity.
    + destruct (log_event_spec "ERROR" (describe (exn_str x)) w1)
        as (w' & E & Ha & _).
      unfold bind, ret. rewrite E. cbn [fst snd]. rewrite Ha, H. auto.
  - destruct H as [Hin Ha]. auto.
Qed.

Ltac tried_leaf :=
  cbn;
  repeat match goal with H : audit_calls _ = _ |- _ => rewrite H; clear H end;
  first [ reflexivity
        | split; [auto 10 | first [reflexivity | eexists; reflexivity]] ].

Lemma create_user_tried req w :
  tried (create_user req) (create_user_try req) w [201%Z; 400%Z] creating_failed.
Proof.
  apply tried_intro; [apply create_user_split|].
  unfold create_user_try. repeat wp_step; tried_leaf.
Qed.

Lemma update_user_tried user_id req w :
  tried (update_user user_id req) (update_user_try user_id req) w
        [200%Z; 400%Z; 404%Z] (updating_failed user_id).
Proof.
  apply tried_intro; [apply update_user_split|].
  unfold update_user_try. repeat wp_step; tried_leaf.
Qed.

Lemma get_logs_silent req w :
  audit_calls (snd (get_logs req w)) = audit_calls w.
Proof.
  change (wp (get_logs req) (fun _ w' => audit_calls w' = audit_calls w) w).
  unfold get_logs. repeat wp_step; congruence.
Qed.

(** ** The handlers on a store that works *)

Lemma get_users_healthy (w : world) :
  faults w = [] ->
  fst (get_users w) =
    inr (jsonify [("users",
                   PList (map user_dict
                              (sort_desc u_created_at (users (committed w)))));
                  ("count", PInt (Z.of_nat (List.length (users (committed w)))));
                  ("instance_id", PStr (INSTANCE_ID (env w)))], 200%Z).
Proof.
  intros Hf. destruct w as [cfg clk strict com ua la cs nc fs dg ac].
  cbn in Hf. subst fs. autounfold with app. sym. reflexivity.
Qed.

Lemma create_user_duplicate_run
      (w : world) (req : request) (kvs : list (string * pyval)) (n e : string) :
  faults w = [] ->
  get_json req = inr (PDict kvs) ->
  field "name" kvs = PStr n -> n <> "" ->
  field "email" kvs = PStr e -> e <> "" ->
  (exists u, In u (users (committed w)) /\ u_email u = e) ->
  create_user req w =
    (inr (error_body "Email already exists", 409%Z),
     set_conns ((next_conn w, Conn true (committed w)) :: conns w)
               (S (next_conn w)) w).
Proof.
  intros Hf Hj Hn Hn0 He He0 Hdup.
  assert (Hex : existsb (fun u => u_email u =? e) (users (committed w)) = true).
  { apply existsb_exists. destruct Hdup as (u & Hin & Hu). exists u.
    split; [assumption|]. apply String.eqb_eq; assumption. }
  apply String.eqb_neq in Hn0, He0.
  destruct w as [cfg clk strict com ua la cs nc fs dg ac].
  cbn in Hf, Hex. subst fs.
  destruct kvs as [|kv kvs]; [discriminate Hn|].
  autounfold with app. rewrite Hj. sym. rewrite Hn, He. sym.
  rewrite Hn0, He0. sym. rewrite Hex. sym. reflexivity.
Qed.

Lemma get_user_absent (w : world) (user_id : Z) :
  faults w = [] ->
  find (has_id user_id) (users (committed w)) = None ->
  fst (get_user user_id w) = inr (error_body "User not found", 404%Z).
Proof.
  intros Hf Hn. destruct w as [cfg clk strict com ua la cs nc fs dg ac].
  cbn in Hf, Hn. subst fs.
  autounfold with app. sym. rewrite Hn. sym. reflexivity.
Qed.

Lemma delete_user_absent (w : world) (user_id : Z) :
  faults w = [] ->
  find (has_id user_id) (users (committed w)) = None ->
  fst (delete_user user_id w) = inr (error_body "User not found", 404%Z).
Proof.
  intros Hf Hn. destruct w as [cfg clk strict com ua la cs nc fs dg ac].
  cbn in Hf, Hn. subst fs.
  autounfold with app. sym. rewrite (filter_find_zero _ _ Hn). sym. reflexivity.
Qed.

Lemma update_user_absent (w : world) (user_id : Z) (req : request) kvs :
  faults w = [] ->
  get_json req = inr (PDict kvs) -> kvs <> [] ->
  text_or_null (field "name" kvs) = true ->
  text_or_null (field "email" kvs) = true ->
  find (has_id user_id) (users (committed w)) = None ->
  fst (update_user user_id req w) = inr (error_body "User not found", 404%Z).
Proof.
  intros Hf Hj Hk Hn He Hu.
  destruct w as [cfg clk strict com ua la cs nc fs dg ac].
  cbn in Hf, Hu. subst fs.
  destruct kvs as [|kv kvs]; [congruence|].
  autounfold with app. rewrite Hj. sym.
  destruct (field "name" (kv :: kvs)); try discriminate Hn;
    destruct (field "email" (kv :: kvs)); try discriminate He;
    sym; rewrite Hu; sym; reflexivity.
Qed.

Lemma delete_user_present (w : world) (user_id : Z) u :
  faults w = [] ->
  find (has_id user_id) (users (committed w)) = Some u ->
  exists w',
    delete_user user_id w =
      (inr (jsonify [("message", PStr "User deleted successfully");
                     ("instance_id", PStr (INSTANCE_ID (env w)))], 200%Z), w') /\
    faults w' = [] /\
    users (committed w') =
      filter (fun u => negb (has_id user_id u)) (users (committed w)).
Proof.
  intros Hf Hu. destruct w as [cfg clk strict com ua la cs nc fs dg ac].
  cbn in Hf, Hu. subst fs.
  autounfold with app. sym. rewrite (filter_find_nonzero _ _ _ Hu). sym.
  eexists; repeat split.
Qed.

Lemma get_logs_shape (req : request) (w : world) :
  (exists msg, fst (get_logs req w) = inr (error_body msg, 500%Z)) \/
  (exists rows,
      fst (get_logs req w) =
        inr (jsonify [("logs", PList (map log_dict rows));
                      ("count", PInt (Z.of_nat (List.length rows)));
                      ("instance_id", PStr (INSTANCE_ID (env w)))], 200%Z) /\
      (0 <= args_get_int (arg_limit req) 100)%Z /\
      rows = firstn (Z.to_nat (args_get_int (arg_limit req) 100))
                    (sort_desc l_created_at
                       (match arg_level req with
                        | Some lv =>
                            if lv =? "" then logs (committed w)
                            else filter (fun r => l_level r =? lv)
                                        (logs (committed w))
                        | None => logs (committed w)
                        end))).
Proof.
  destruct w as [cfg clk strict com ua la cs nc fs dg ac].
  destruct req as [j lim lev].
  autounfold with app. cbn [arg_limit arg_level].
  set (limit := args_get_int lim 100).
  destruct fs as [|[e|] fs]; sym; try (left; eexists; reflexivity).
  - destruct lev as [lv|]; [destruct (lv =? "") eqn:El|]; sym;
      (destruct (limit <? 0)%Z eqn:E1; [sym; left; eexists; reflexivity|];
       destruct (18446744073709551615 <? limit)%Z eqn:E2; sym;
       [left; eexists; reflexivity|];
       right; eexists; repeat split; apply Z.ltb_ge in E1; lia).
  - destruct lev as [lv|]; [destruct (lv =? "") eqn:El|]; sym;
      (destruct fs as [|[e|] fs]; sym; try (left; eexists; reflexivity);
       (destruct (limit <? 0)%Z eqn:E1; [sym; left; eexists; reflexivity|];
        destruct (18446744073709551615 <? limit)%Z eqn:E2; sym;
        [left; eexists; reflexivity|];
        right; eexists; repeat split; apply Z.ltb_ge in E1; lia)).
Qed.

Lemma get_logs_cases (req : request) (w : world) :
  if logs_served req w
  then
    fst (get_logs req w) =
      inr (jsonify
             [("logs",
               PList (map log_dict
                          (firstn (Z.to_nat (args_get_int (arg_limit req) 100))
                                  (sort_desc l_created_at
                                     (matching_logs (arg_level req)
                                                    (logs (committed w)))))));
              ("count",
               PInt (Z.of_nat
                       (List.length
                          (firstn (Z.to_nat (args_get_int (arg_limit req) 100))
                                  (sort_desc l_created_at
                                     (matching_logs (arg_level req)
                                                    (logs (committed w))))))));
              ("instance_id", PStr (INSTANCE_ID (env w)))], 200%Z)
  else exists msg, fst (get_logs req w) = inr (error_body msg, 500%Z).
Proof.
  destruct w as [cfg clk strict com ua la cs nc fs dg ac].
  destruct req as [j lim lev].
  unfold logs_served, matching_logs. cbn [arg_limit arg_level faults committed env].
  set (limit := args_get_int lim 100).
  autounfold with app. cbn [arg_limit arg_level]. fold limit.
  replace (0 <=? limit)%Z with (negb (limit <? 0)%Z) by (symmetry; apply Z.leb_antisym).
  replace (limit <=? 18446744073709551615)%Z
    with (negb (18446744073709551615 <? limit)%Z) by (symmetry; apply Z.leb_antisym).
  destruct fs as [|[e|] [|[e'|] fs]]; sym; try (eexists; reflexivity);
    (destruct lev as [lv|]; [destruct (lv =? "") eqn:El|]; sym;
     destruct (limit <? 0)%Z eqn:E1; sym; try (eexists; reflexivity);
     destruct (18446744073709551615 <? limit)%Z eqn:E2; sym;
     first [reflexivity | eexists; reflexivity]).
Qed.

Lemma home_spec (w : world) :
  snd (home w) = snd (log_event "INFO" "Home endpoint accessed" w) /\
  audit_calls (snd (home w)) =
    (audit_calls w ++ [("INFO", "Home endpoint accessed")])%list /\
  users (committed (snd (home w))) = users (committed w).
Proof.
  destruct (log_event_spec "INFO" "Home endpoint accessed" w)
    as (w' & E & Ha & Hu & _).
  unfold home, bind, gets, ret. rewrite E. cbn [fst snd].
  split; [reflexivity|]. split; assumption.
Qed.

(* ================================================================== *)
(** * Scenarios

    The concrete runs of the specification, evaluated on the model. *)

Example sort_desc_newest_first :
  map l_id (sort_desc l_created_at
              [LogRow 1 "INFO" "a" "i-1" 10; LogRow 2 "INFO" "b" "i-1" 30;
               LogRow 3 "ERROR" "c" "i-1" 20; LogRow 4 "INFO" "d" "i-1" 30])
  = [2%Z; 4%Z; 3%Z; 1%Z].
Proof. reflexivity. Qed.

Example scenario_create_get_repeat :
  let w1 := snd (create_user john_request world0) in
  fst (create_user john_request world0) =
    inr (jsonify [("message", PStr "User created successfully");
                  ("user_id", PInt 1);
                  ("instance_id", PStr "i-1")], 201%Z) /\
  fst (get_user 1 w1) =
    inr (jsonify [("user", user_dict john); ("instance_id", PStr "i-1")], 200%Z) /\
  fst (create_user john_request w1) =
    inr (error_body "Email already exists", 409%Z).
Proof. repeat split; vm_compute; reflexivity. Qed.

Example scenario_update_refreshes :
  let w1 := snd (update_user 1 updated_request world_john) in
  fst (update_user 1 updated_request world_john) =
    inr (jsonify [("message", PStr "User updated successfully");
                  ("instance_id", PStr "i-1")], 200%Z) /\
  fst (get_user 1 w1) =
    inr (jsonify [("user",
                   user_dict (UserRow 1 "John Updated"
                                      "john.updated@example.com" 1000 2000));
                  ("instance_id", PStr "i-1")], 200%Z).
Proof. repeat split; vm_compute; reflexivity. Qed.

Example scenario_unreachable_health :
  exists why,
    fst (health world_unreachable) =
      inr (jsonify [("status", PStr "unhealthy");
                    ("database", PStr why);
                    ("instance_id", PStr "i-1");
                    ("timestamp", PStr "1000")], 500%Z) /\
    why <> "".
Proof. eexists. split; [vm_compute; reflexivity | discriminate]. Qed.

Example scenario_missing_email :
  create_user name_only_request world0 =
    (inr (error_body "Name and email are required", 400%Z), world0).
Proof. vm_compute. reflexivity. Qed.

Example scenario_strict_update_without_email :
  fst (update_user 1 name_only_request world_john) =
    inr (error_body (exn_str (cannot_be_null "email")), 500%Z) /\
  users (committed (snd (update_user 1 name_only_request world_john))) = [john].
Proof. repeat split; vm_compute; reflexivity. Qed.

Example scenario_logs_limit_and_level :
  let w1 := snd (get_users (snd (create_user john_request world0))) in
  fst (get_logs (Request (inr PNone) (ArgInt 1) (Some "INFO")) (at_time 3000 w1)) =
    inr (jsonify
           [("logs",
             PList [log_dict (LogRow 1 "INFO"
                                     "Created user: John Doe (john@example.com)"
                                     "i-1" 1000)]);
            ("count", PInt 1);
            ("instance_id", PStr "i-1")], 200%Z).
Proof. vm_compute. reflexivity. Qed.

(* ================================================================== *)
(** * The claims *)

(** C1.  On a store that works, a POST /users whose body carries a
    non-empty name and an email that some row of [users] already has is
    answered 409 with [{'error': 'Email already exists'}]; nothing is
    committed, so the tables are the ones from before the request, and
    GET /users reports afterwards the count it reported before: the
    number of rows. *)
Theorem create_user_duplicate_email
        (w : world) (req : request) (kvs : list (string * pyval)) (n e : string) :
  faults w = [] ->
  get_json req = inr (PDict kvs) ->
  field "name" kvs = PStr n -> n <> "" ->
  field "email" kvs = PStr e -> e <> "" ->
  (exists u, In u (users (committed w)) /\ u_email u = e) ->
  fst (create_user req w) = inr (error_body "Email already exists", 409%Z) /\
  committed (snd (create_user req w)) = committed w /\
  response_count (fst (get_users (snd (create_user req w)))) =
    response_count (fst (get_users w)) /\
  response_count (fst (get_users w)) =
    Some (PInt (Z.of_nat (List.length (users (committed w))))).
Proof.
  intros Hf Hj Hn Hn0 He He0 Hdup.
  rewrite (create_user_duplicate_run w req kvs n e) by assumption.
  cbn [fst snd]. rewrite !get_users_healthy by assumption.
  repeat split.
Qed.

Lemma create_user_duplicate_email_witness :
  faults world_john = [] /\
  get_json john_request = inr (PDict john_body) /\
  field "name" john_body = PStr "John Doe" /\ "John Doe" <> "" /\
  field "email" john_body = PStr "john@example.com" /\
  "john@example.com" <> "" /\
  (exists u, In u (users (committed world_john)) /\
             u_email u = "john@example.com") /\
  fst (create_user john_request world_john) =
    inr (error_body "Email already exists", 409%Z) /\
  committed (snd (create_user john_request world_john)) = committed world_john /\
  response_count (fst (get_users (snd (create_user john_request world_john)))) =
    response_count (fst (get_users world_john)) /\
  response_count (fst (get_users world_john)) = Some (PInt 1).
Proof.
  assert (Hn : "John Doe" <> "") by discriminate.
  assert (He : "john@example.com" <> "") by discriminate.
  assert (Hu : exists u, In u (users (committed world_john)) /\
                         u_email u = "john@example.com")
    by (exists john; split; [left; reflexivity | reflexivity]).
  do 7 (split; [first [reflexivity | assumption]|]).
  exact (create_user_duplicate_email world_john john_request john_body
           "John Doe" "john@example.com"
           eq_refl eq_refl eq_refl Hn eq_refl He Hu).
Defined.

(** C2 is not what the code does for the empty object: a POST /users
    with body [{}] lacks both members and is answered 400 with
    [{'error': 'No data provided'}], by the guard that precedes the
    check of the members. *)
Lemma create_user_empty_body_counterexample :
  field "name" [] = PNone /\ field "email" [] = PNone /\
  fst (create_user empty_request world0) =
    inr (error_body "No data provided", 400%Z) /\
  fst (create_user empty_request world0) <>
    inr (error_body "Name and email are required", 400%Z).
Proof.
  repeat split; try (vm_compute; reflexivity). vm_compute. discriminate.
Qed.

(** C2, amended.  A POST /users whose body is a JSON object in which
    [name] or [email] is missing, null, the empty string or otherwise
    falsy is answered 400 and the world is left exactly as it was: no
    connection, no statement, no event.  The message is 'Name and email
    are required' for an object with members and 'No data provided' for
    the empty object. *)
Theorem create_user_validation
        (req : request) (kvs : list (string * pyval)) (w : world) :
  get_json req = inr (PDict kvs) ->
  truthy (field "name" kvs) = false \/ truthy (field "email" kvs) = false ->
  create_user req w =
    (inr (error_body (match kvs with
                      | [] => "No data provided"
                      | _ :: _ => "Name and email are required"
                      end), 400%Z), w).
Proof.
  intros Hj Hf. unfold create_user, try_except, bind, lift. rewrite Hj.
  destruct kvs as [|kv kvs]; [reflexivity|].
  cbn [truthy negb dict_get ret].
  destruct Hf as [Hf|Hf]; rewrite Hf; [reflexivity|].
  rewrite orb_true_r. reflexivity.
Qed.

Lemma create_user_validation_witness :
  get_json name_only_request = inr (PDict name_only_body) /\
  (truthy (field "name" name_only_body) = false \/
   truthy (field "email" name_only_body) = false) /\
  create_user name_only_request world_john =
    (inr (error_body "Name and email are required", 400%Z), world_john).
Proof.
  split; [reflexivity|]. split; [right; reflexivity|].
  exact (create_user_validation name_only_request name_only_body world_john
           eq_refl (or_intror eq_refl)).
Defined.

(** C3 fails on the exception paths.  The duplicate POST /users of C1
    acquires a connection, the INSERT raises, and the handler answers 409
    while the connection it acquired is still open: before the request no
    connection is open, after it connection 0 is. *)
Theorem create_user_duplicate_leaks_connection :
  open_conns world_john = [] /\
  fst (create_user john_request world_john) =
    inr (error_body "Email already exists", 409%Z) /\
  open_conns (snd (create_user john_request world_john)) = [0%nat].
Proof. repeat split; vm_compute; reflexivity. Qed.

(** C4.  [log_event] returns normally for every level, message and world,
    that is for every plan of store failures.  Either the row is appended
    to [logs] and the logger stays silent, or nothing is committed and
    the error ends up in the logger as a "Logging error" line. *)
Theorem log_event_never_raises (level message : string) (w : world) :
  fst (log_event level message w) = inr tt /\
  ((logs (committed (snd (log_event level message w))) =
      (logs (committed w) ++
         [LogRow (logs_auto w) level message (INSTANCE_ID (env w)) (clock w)])%list
    /\ users (committed (snd (log_event level message w))) = users (committed w)
    /\ diag (snd (log_event level message w)) = diag w)
   \/
   (committed (snd (log_event level message w)) = committed w /\
    exists e pre,
      diag (snd (log_event level message w)) =
        (diag w ++ pre ++ [("Logging error: " ++ exn_str e)%string])%list)).
Proof.
  destruct (log_event_spec level message w) as (w' & E & _ & Hu & H).
  rewrite E. cbn [fst snd]. split; [reflexivity|].
  destruct H as [[Hl Hd]|H]; [left; auto | right; exact H].
Qed.

(** C5 is not what the code does: GET /logs on a store that works is
    answered 200 and [log_event] has not been called. *)
Lemma get_logs_records_no_event :
  fst (get_logs empty_request world_john) =
    inr (jsonify [("logs", PList []); ("count", PInt 0);
                  ("instance_id", PStr "i-1")], 200%Z) /\
  audit_calls (snd (get_logs empty_request world_john)) = audit_calls world_john /\
  List.length (audit_calls (snd (get_logs empty_request world_john))) <>
    S (List.length (audit_calls world_john)).
Proof.
  repeat split; try (vm_compute; reflexivity). vm_compute. discriminate.
Qed.

(** C5, amended.  Health, List users, Get and Delete always answer, and
    call [log_event] exactly once, at INFO, when they answer 200; exactly
    once, at ERROR, when they answer 500; not at all when they answer
    404.  Create and Update answer what their [try] block returns, after
    exactly one INFO event with 201 and 200 and after no event with 400
    and 404.  What the block raises, it raises before any event: the
    duplicate IntegrityError is then answered 409 and no event follows;
    an exception that is not an IntegrityError is answered 500 after
    exactly one ERROR event, which carries its text.  Home calls
    [log_event] exactly once; List logs and Info never call it. *)
Theorem audit_events_by_outcome (w : world) (req : request) (user_id : Z) :
  answers health w audited /\
  answers get_users w audited /\
  answers (get_user user_id) w audited /\
  answers (delete_user user_id) w audited /\
  tried (create_user req) (create_user_try req) w
        [201%Z; 400%Z] creating_failed /\
  tried (update_user user_id req) (update_user_try user_id req) w
        [200%Z; 400%Z; 404%Z] (updating_failed user_id) /\
  audit_calls (snd (home w)) =
    (audit_calls w ++ [("INFO", "Home endpoint accessed")])%list /\
  audit_calls (snd (get_logs req w)) = audit_calls w /\
  audit_calls (snd (info w)) = audit_calls w.
Proof.
  split; [apply health_audited|].
  split; [apply get_users_audited|].
  split; [apply get_user_audited|].
  split; [apply delete_user_audited|].
  split; [apply create_user_tried|].
  split; [apply update_user_tried|].
  split; [apply home_spec|].
  split; [apply get_logs_silent | reflexivity].
Qed.

(** C5 on a store that refuses the connection: the [try] block of Create
    raises the OperationalError, which is not an IntegrityError, and
    Create answers 500 after the one ERROR event. *)
Lemma audit_events_by_outcome_witness :
  fst (create_user_try john_request world_unreachable) = inl connect_refused /\
  is_IntegrityError connect_refused = false /\
  fst (create_user john_request world_unreachable) =
    inr (error_body (exn_str connect_refused), 500%Z) /\
  audit_calls (snd (create_user john_request world_unreachable)) =
    [("ERROR", creating_failed (exn_str connect_refused))].
Proof.
  do 2 (split; [reflexivity|]).
  exact (proj2 (proj1 (proj2 (proj2 (proj2 (proj2
           (audit_events_by_outcome world_unreachable john_request 1))))))).
Defined.

(** C6.  On a store that works, when no row of [users] has the id, GET,
    PUT (with a non-empty object whose name and email are strings, null
    or absent) and DELETE of /users/id are answered 404 with
    [{'error': 'User not found'}]; and when a row has the id, DELETE is
    answered 200 and the GET of the same id that follows is answered
    404. *)
Theorem missing_user_is_404
        (w : world) (user_id : Z) (req : request) (kvs : list (string * pyval)) :
  faults w = [] ->
  get_json req = inr (PDict kvs) -> kvs <> [] ->
  text_or_null (field "name" kvs) = true ->
  text_or_null (field "email" kvs) = true ->
  ((forall u, In u (users (committed w)) -> u_id u <> user_id) ->
   fst (get_user user_id w) = inr (error_body "User not found", 404%Z) /\
   fst (update_user user_id req w) = inr (error_body "User not found", 404%Z) /\
   fst (delete_user user_id w) = inr (error_body "User not found", 404%Z))
  /\
  ((exists u, In u (users (committed w)) /\ u_id u = user_id) ->
   fst (delete_user user_id w) =
     inr (jsonify [("message", PStr "User deleted successfully");
                   ("instance_id", PStr (INSTANCE_ID (env w)))], 200%Z) /\
   fst (get_user user_id (snd (delete_user user_id w))) =
     inr (error_body "User not found", 404%Z)).
Proof.
  intros Hf Hj Hk Hn He. split.
  - intros Habs. apply find_none_absent in Habs.
    repeat split.
    + apply get_user_absent; assumption.
    + apply (update_user_absent w user_id req kvs); assumption.
    + apply delete_user_absent; assumption.
  - intros Hex. apply find_some_present in Hex. destruct Hex as [u Hu].
    destruct (delete_user_present w user_id u Hf Hu) as (w' & E & Hf' & Hus).
    rewrite E. cbn [fst snd]. split; [reflexivity|].
    apply get_user_absent; [assumption|].
    rewrite Hus. apply find_after_delete.
Qed.

Lemma missing_user_is_404_witness :
  (faults world0 = [] /\
   get_json john_request = inr (PDict john_body) /\ john_body <> [] /\
   text_or_null (field "name" john_body) = true /\
   text_or_null (field "email" john_body) = true /\
   (forall u, In u (users (committed world0)) -> u_id u <> 999%Z) /\
   fst (get_user 999 world0) = inr (error_body "User not found", 404%Z) /\
   fst (update_user 999 john_request world0) =
     inr (error_body "User not found", 404%Z) /\
   fst (delete_user 999 world0) = inr (error_body "User not found", 404%Z))
  /\
  (faults world_john = [] /\
   (exists u, In u (users (committed world_john)) /\ u_id u = 1%Z) /\
   fst (delete_user 1 world_john) =
     inr (jsonify [("message", PStr "User deleted successfully");
                   ("instance_id", PStr "i-1")], 200%Z) /\
   fst (get_user 1 (snd (delete_user 1 world_john))) =
     inr (error_body "User not found", 404%Z)).
Proof.
  assert (Hk : john_body <> []) by discriminate.
  assert (Habs : forall u, In u (users (committed world0)) -> u_id u <> 999%Z)
    by (intros u []).
  assert (Hex : exists u, In u (users (committed world_john)) /\ u_id u = 1%Z)
    by (exists john; split; [left; reflexivity | reflexivity]).
  split.
  - do 6 (split; [first [reflexivity | assumption]|]).
    exact (proj1 (missing_user_is_404 world0 999 john_request john_body
                    eq_refl eq_refl Hk eq_refl eq_refl) Habs).
  - do 2 (split; [first [reflexivity | assumption]|]).
    exact (proj2 (missing_user_is_404 world_john 1 john_request john_body
                    eq_refl eq_refl Hk eq_refl eq_refl) Hex).
Defined.

(** C7 is not what the code does.  Each of these PUT /users/1 has a body
    that is not empty and a row that has the id, and leaves the row as it
    was: on a server in strict mode a body without email is answered 500;
    a body with the email of another row is answered 409; a body that
    repeats the row's name and email is answered 404, and [updated_at]
    keeps its value. *)
Lemma update_user_refused_counterexample :
  get_json name_only_request = inr (PDict [("name", PStr "X")]) /\
  strict_mode world_john = true /\
  fst (update_user 1 name_only_request world_john) =
    inr (error_body (exn_str (cannot_be_null "email")), 500%Z) /\
  users (committed (snd (update_user 1 name_only_request world_john))) =
    [UserRow 1 "John Doe" "john@example.com" 1000 1000] /\
  get_json collide_request =
    inr (PDict [("name", PStr "John Doe"); ("email", PStr "jane@example.com")]) /\
  fst (update_user 1 collide_request world_two) =
    inr (error_body "Email already exists", 409%Z) /\
  users (committed (snd (update_user 1 collide_request world_two))) =
    [UserRow 1 "John Doe" "john@example.com" 1000 1000;
     UserRow 2 "Jane Smith" "jane@example.com" 1500 1500] /\
  get_json john_request =
    inr (PDict [("name", PStr "John Doe"); ("email", PStr "john@example.com")]) /\
  clock world_john = 2000%Z /\
  fst (update_user 1 john_request world_john) =
    inr (error_body "User not found", 404%Z) /\
  users (committed (snd (update_user 1 john_request world_john))) =
    [UserRow 1 "John Doe" "john@example.com" 1000 1000].
Proof.
  do 2 (split; [reflexivity|]).
  do 2 (split; [vm_compute; reflexivity|]).
  split; [reflexivity|].
  do 2 (split; [vm_compute; reflexivity|]).
  do 2 (split; [reflexivity|]).
  split; vm_compute; reflexivity.
Qed.

(** C7, amended.  On a store that works, a PUT /users/id with a non-empty
    object (name and email strings, null or absent), for an id that a
    row has, is answered
    - 500 with the server's 'cannot be null' text, when the server is in
      strict mode and the name, or else the email, is null or absent;
    - otherwise 404, when the row already holds the name and the email
      of the body;
    - otherwise 409, when another row holds the email of the body;
    - otherwise 200.
    With 200, every row with the id has its name and its email replaced
    by what the body gave, the empty string standing for a member that
    is null or absent, and its [updated_at] set to the current time;
    nothing of the old name or email is kept, and the other rows are as
    before.  With 500, 404 and 409, [users] is untouched. *)
Theorem update_user_outcome
        (w : world) (user_id : Z) (req : request)
        (kvs : list (string * pyval)) (old : user_row) :
  faults w = [] ->
  get_json req = inr (PDict kvs) -> kvs <> [] ->
  text_or_null (field "name" kvs) = true ->
  text_or_null (field "email" kvs) = true ->
  find (has_id user_id) (users (committed w)) = Some old ->
  match refused_column w kvs with
  | Some col =>
      fst (update_user user_id req w) =
        inr (error_body (exn_str (cannot_be_null col)), 500%Z) /\
      users (committed (snd (update_user user_id req w))) = users (committed w)
  | None =>
      if (u_name old =? stored (field "name" kvs)) &&
         (u_email old =? stored (field "email" kvs))
      then
        fst (update_user user_id req w) =
          inr (error_body "User not found", 404%Z) /\
        users (committed (snd (update_user user_id req w))) =
          users (committed w)
      else if existsb (fun u => (u_email u =? stored (field "email" kvs)) &&
                                negb (u_id u =? user_id)%Z)
                      (users (committed w))
      then
        fst (update_user user_id req w) =
          inr (error_body "Email already exists", 409%Z) /\
        users (committed (snd (update_user user_id req w))) =
          users (committed w)
      else
        fst (update_user user_id req w) = inr (updated_reply w) /\
        users (committed (snd (update_user user_id req w))) =
          map (fun u =>
                 if (u_id u =? user_id)%Z
                 then UserRow (u_id u)
                              (stored (field "name" kvs))
                              (stored (field "email" kvs))
                              (u_created_at u) (clock w)
                 else u)
              (users (committed w))
  end.
Proof.
  intros Hf Hj Hk Hn He Hold.
  destruct w as [cfg clk strict com ua la cs nc fs dg ac].
  cbn in Hf, Hold. subst fs.
  destruct kvs as [|kv kvs]; [congruence|].
  unfold refused_column, null_column, updated_reply.
  cbn [strict_mode committed clock env].
  change (fun u : user_row =>
            (u_email u =? stored (field "email" (kv :: kvs))) &&
            negb (u_id u =? user_id)%Z)
    with (fun u : user_row =>
            (u_email u =? stored (field "email" (kv :: kvs))) &&
            negb (has_id user_id u)).
  autounfold with app. rewrite Hj. sym.
  destruct (field "name" (kv :: kvs)) as [| | |n| | |] ; try discriminate Hn;
    destruct (field "email" (kv :: kvs)) as [| | |e| | |]; try discriminate He;
    destruct strict; sym; rewrite ?Hold; sym;
    try (split; reflexivity);
    (match goal with
     | |- if ?c then _ else _ => destruct c eqn:Hsame
     end; sym; [split; reflexivity|];
     match goal with
     | |- if ?c then _ else _ => destruct c eqn:Hdup
     end; sym; rewrite ?Hdup; sym; split; reflexivity).
Qed.

(** C7 on a server that is not in strict mode: a PUT with only the name
    blanks the email. *)
Lemma update_user_outcome_witness :
  faults world_lenient = [] /\
  get_json name_only_request = inr (PDict name_only_body) /\
  name_only_body <> [] /\
  text_or_null (field "name" name_only_body) = true /\
  text_or_null (field "email" name_only_body) = true /\
  find (has_id 1) (users (committed world_lenient)) = Some john /\
  fst (update_user 1 name_only_request world_lenient) =
    inr (jsonify [("message", PStr "User updated successfully");
                  ("instance_id", PStr "i-1")], 200%Z) /\
  users (committed (snd (update_user 1 name_only_request world_lenient))) =
    [UserRow 1 "X" "" 1000 2000].
Proof.
  assert (Hk : name_only_body <> []) by discriminate.
  do 6 (split; [first [reflexivity | assumption]|]).
  exact (update_user_outcome world_lenient 1 name_only_request name_only_body
           john eq_refl eq_refl Hk eq_refl eq_refl eq_refl).
Defined.

(** C8 is not what the code does: GET /logs?level= supplies a level, the
    empty text, and is answered with the rows of every level. *)
Lemma get_logs_empty_level_counterexample :
  arg_level empty_level_request = Some "" /\
  fst (get_logs empty_level_request world_logs) =
    inr (jsonify [("logs",
                   PList (map log_dict
                              [LogRow 3 "INFO" "c" "i-1" 30;
                               LogRow 2 "ERROR" "b" "i-1" 20;
                               LogRow 1 "INFO" "a" "i-1" 10]));
                  ("count", PInt 3);
                  ("instance_id", PStr "i-1")], 200%Z) /\
  ~ Forall (fun r => l_level r = "")
           [LogRow 3 "INFO" "c" "i-1" 30;
            LogRow 2 "ERROR" "b" "i-1" 20;
            LogRow 1 "INFO" "a" "i-1" 10].
Proof.
  split; [reflexivity|]. split; [vm_compute; reflexivity|].
  intros H. inversion H as [|? ? Hl _]. discriminate Hl.
Qed.

(** C8, amended.  GET /logs answers 200 exactly when the connection and
    the SELECT succeed and the server accepts the limit as a row count,
    and 500 with an error body otherwise.  With 200 the rows are rows of
    the [logs] table, [count] is their number, this number is at most
    the limit, at most 100 when the limit parameter is absent, every row
    has the level of the filter when the level parameter is a non-empty
    text, and the rows come by [created_at] descending.  They are as
    many as the limit allows among the matching rows, which are all the
    rows when the level parameter is absent or empty. *)
Theorem get_logs_bounded_and_filtered (req : request) (w : world) :
  if logs_served req w
  then
    exists rows,
      fst (get_logs req w) =
        inr (jsonify [("logs", PList (map log_dict rows));
                      ("count", PInt (Z.of_nat (List.length rows)));
                      ("instance_id", PStr (INSTANCE_ID (env w)))], 200%Z) /\
      (Z.of_nat (List.length rows) <= args_get_int (arg_limit req) 100)%Z /\
      (arg_limit req = ArgAbsent -> (List.length rows <= 100)%nat) /\
      (forall lv, arg_level req = Some lv -> lv <> "" ->
                  Forall (fun r => l_level r = lv) rows) /\
      StronglySorted newest_first rows /\
      incl rows (logs (committed w)) /\
      List.length rows =
        Nat.min (Z.to_nat (args_get_int (arg_limit req) 100))
                (List.length (matching_logs (arg_level req)
                                            (logs (committed w))))
  else
    exists msg, fst (get_logs req w) = inr (error_body msg, 500%Z).
Proof.
  pose proof (get_logs_cases req w) as H.
  destruct (logs_served req w) eqn:Hs; [|exact H].
  unfold logs_served in Hs.
  apply andb_prop in Hs. destruct Hs as [Hs Hhi].
  apply andb_prop in Hs. destruct Hs as [_ Hlo].
  apply Z.leb_le in Hlo, Hhi.
  set (limit := args_get_int (arg_limit req) 100) in *.
  set (rows := firstn (Z.to_nat limit)
                      (sort_desc l_created_at
                         (matching_logs (arg_level req) (logs (committed w))))) in *.
  assert (Hlen : List.length rows =
                 Nat.min (Z.to_nat limit)
                         (List.length (matching_logs (arg_level req)
                                                     (logs (committed w))))).
  { unfold rows. rewrite length_firstn, sort_desc_length. reflexivity. }
  assert (Hsub : forall r, In r rows ->
                           In r (matching_logs (arg_level req) (logs (committed w)))).
  { intros r Hr. apply firstn_subset in Hr. apply sort_desc_subset in Hr. exact Hr. }
  exists rows. split; [exact H|].
  split; [lia|].
  split; [intros Ha; unfold limit in Hlen; rewrite Ha in Hlen; cbn in Hlen; lia|].
  split; [|split; [|split; [|exact Hlen]]].
  - intros lv Hlv Hne. apply Forall_forall. intros r Hr. apply Hsub in Hr.
    rewrite Hlv in Hr. cbn in Hr. apply String.eqb_neq in Hne. rewrite Hne in Hr.
    apply filter_In in Hr. destruct Hr as [_ Hr]. apply String.eqb_eq. exact Hr.
  - apply firstn_sorted, sort_desc_sorted.
  - intros r Hr. apply Hsub in Hr. unfold matching_logs in Hr.
    destruct (arg_level req) as [lv|]; [|exact Hr].
    destruct (lv =? ""); [exact Hr|]. apply filter_In in Hr. tauto.
Qed.

(** C8 on a table of three events, asking for the newest INFO event. *)
Lemma get_logs_bounded_and_filtered_witness :
  logs_served newest_info_request world_logs = true /\
  arg_limit newest_info_request = ArgInt 1 /\
  arg_level newest_info_request = Some "INFO" /\
  fst (get_logs newest_info_request world_logs) =
    inr (jsonify [("logs", PList [log_dict (LogRow 3 "INFO" "c" "i-1" 30)]);
                  ("count", PInt 1);
                  ("instance_id", PStr "i-1")], 200%Z) /\
  exists rows,
    fst (get_logs newest_info_request world_logs) =
      inr (jsonify [("logs", PList (map log_dict rows));
                    ("count", PInt (Z.of_nat (List.length rows)));
                    ("instance_id", PStr "i-1")], 200%Z) /\
    (Z.of_nat (List.length rows) <= 1)%Z /\
    (arg_limit newest_info_request = ArgAbsent -> (List.length rows <= 100)%nat) /\
    (forall lv, arg_level newest_info_request = Some lv -> lv <> "" ->
                Forall (fun r => l_level r = lv) rows) /\
    StronglySorted newest_first rows /\
    incl rows three_logs /\
    List.length rows = 1%nat.
Proof.
  do 3 (split; [reflexivity|]).
  split; [vm_compute; reflexivity|].
  exact (get_logs_bounded_and_filtered newest_info_request world_logs).
Defined.

(** C9 is not what the code does for Home: GET / on a store that works
    acquires a connection and commits a row to [logs]. *)
Lemma home_accesses_store :
  open_conns world0 = [] /\
  logs (committed world0) = [] /\
  conns (snd (home world0)) =
    [(0%nat,
      Conn false
           (Tables [] [LogRow 1 "INFO" "Home endpoint accessed" "i-1" 1000]))] /\
  logs (committed (snd (home world0))) =
    [LogRow 1 "INFO" "Home endpoint accessed" "i-1" 1000] /\
  snd (home world0) <> world0.
Proof.
  repeat split; try (vm_compute; reflexivity).
  intros H. apply (f_equal next_conn) in H. vm_compute in H. discriminate H.
Qed.

(** C9, amended.  Info performs no store access: GET /info answers 200
    and leaves the whole world as it was, so no connection is acquired
    and no row is written.  Home does what one call of [log_event] with
    'Home endpoint accessed' does, which is counted once and leaves
    [users] as it was. *)
Theorem info_no_store_access_home_records (w : world) :
  snd (info w) = w /\
  fst (info w) =
    inr (jsonify [("application", PStr "Two-Tier Web Application");
                  ("version", PStr "1.0.0");
                  ("instance_id", PStr (INSTANCE_ID (env w)));
                  ("database_host", PStr (DB_HOST (env w)));
                  ("database_name", PStr (DB_NAME (env w)));
                  ("timestamp", PStr (isoformat (clock w)))], 200%Z) /\
  snd (home w) = snd (log_event "INFO" "Home endpoint accessed" w) /\
  audit_calls (snd (home w)) =
    (audit_calls w ++ [("INFO", "Home endpoint accessed")])%list /\
  users (committed (snd (home w))) = users (committed w).
Proof.
  split; [reflexivity|]. split; [reflexivity|]. apply home_spec.
Qed.

(** C10.  A PUT /users/id whose body parses to a falsy value (null, the
    empty object) is answered 400 with [{'error': 'No data provided'}]
    and the world is left exactly as it was, whether or not a row has the
    id: no connection is acquired and nothing is stored. *)
Theorem update_user_no_data
        (user_id : Z) (req : request) (data : pyval) (w : world) :
  get_json req = inr data -> truthy data = false ->
  update_user user_id req w = (inr (error_body "No data provided", 400%Z), w).
Proof.
  intros Hj Ht. unfold update_user, try_except, bind, lift.
  rewrite Hj, Ht. reflexivity.
Qed.

Lemma update_user_no_data_witness :
  get_json empty_request = inr (PDict []) /\
  truthy (PDict []) = false /\
  In john (users (committed world_john)) /\
  update_user 1 empty_request world_john =
    (inr (error_body "No data provided", 400%Z), world_john).
Proof.
  split; [reflexivity|]. split; [reflexivity|].
  split; [left; reflexivity|].
  exact (update_user_no_data 1 empty_request (PDict []) world_john
           eq_refl eq_refl).
Defined.

(* ================================================================== *)
(** * Further properties of the handlers *)

(** ** Writing a user and reading it back *)

Lemma existsb_email_false (e : string) (l : list user_row) :
  (forall u, In u l -> u_email u <> e) ->
  existsb (fun u => u_email u =? e) l = false.
Proof.
  intros H. induction l as [|x r IH]; [reflexivity|].
  cbn. rewrite IH by (intros u Hu; apply H; right; exact Hu).
  rewrite orb_false_r. apply String.eqb_neq. apply H. left. reflexivity.
Qed.

Lemma find_app_fresh (id : Z) (l : list user_row) (x : user_row) :
  (forall u, In u l -> u_id u <> id) -> u_id x = id ->
  find (has_id id) (l ++ [x]) = Some x.
Proof.
  intros H Hx. induction l as [|y r IH]; cbn.
  - unfold has_id. rewrite Hx, Z.eqb_refl. reflexivity.
  - assert (Hy : has_id id y = false)
      by (apply Z.eqb_neq; apply H; left; reflexivity).
    rewrite Hy. apply IH. intros u Hu. apply H. right. exact Hu.
Qed.

Lemma create_user_run
      (w : world) (req : request) (kvs : list (string * pyval)) (n e : string) :
  faults w = [] ->
  get_json req = inr (PDict kvs) ->
  field "name" kvs = PStr n -> n <> "" ->
  field "email" kvs = PStr e -> e <> "" ->
  (forall u, In u (users (committed w)) -> u_email u <> e) ->
  exists w',
    create_user req w =
      (inr (jsonify [("message", PStr "User created successfully");
                     ("user_id", PInt (users_auto w));
                     ("instance_id", PStr (INSTANCE_ID (env w)))], 201%Z), w') /\
    users (committed w') =
      (users (committed w) ++ [UserRow (users_auto w) n e (clock w) (clock w)])%list /\
    logs (committed w') =
      (logs (committed w) ++
         [LogRow (logs_auto w) "INFO"
                 ("Created user: " ++ n ++ " (" ++ e ++ ")")%string
                 (INSTANCE_ID (env w)) (clock w)])%list /\
    users_auto w' = (users_auto w + 1)%Z /\
    open_conns w' = open_conns w /\
    faults w' = [] /\ env w' = env w /\ clock w' = clock w.
Proof.
  intros Hf Hj Hn Hn0 He He0 Hfresh.
  apply existsb_email_false in Hfresh.
  apply String.eqb_neq in Hn0, He0.
  destruct w as [cfg clk strict com ua la cs nc fs dg ac].
  cbn in Hf, Hfresh. subst fs.
  destruct kvs as [|kv kvs]; [discriminate Hn|].
  autounfold with app. rewrite Hj. sym. rewrite Hn, He. sym.
  rewrite Hn0, He0. sym. rewrite Hfresh. sym.
  eexists. repeat split.
Qed.

Lemma get_user_present (w : world) (user_id : Z) (u : user_row) :
  faults w = [] ->
  find (has_id user_id) (users (committed w)) = Some u ->
  fst (get_user user_id w) =
    inr (jsonify [("user", user_dict u);
                  ("instance_id", PStr (INSTANCE_ID (env w)))], 200%Z).
Proof.
  intros Hf Hu. destruct w as [cfg clk strict com ua la cs nc fs dg ac].
  cbn in Hf, Hu. subst fs.
  autounfold with app. sym. rewrite Hu. sym. reflexivity.
Qed.

(** X1.  On a store that works, a POST /users with a non-empty name and an
    email no row has is answered 201 with the AUTO_INCREMENT value as
    [user_id]; [users] gains exactly one row, appended, with that id, the
    name and email of the body and both timestamps at the current time;
    [logs] gains the INFO row 'Created user: name (email)'; and no
    connection is left open. *)
Theorem create_user_appends_row
        (w : world) (req : request) (kvs : list (string * pyval)) (n e : string) :
  faults w = [] ->
  get_json req = inr (PDict kvs) ->
  field "name" kvs = PStr n -> n <> "" ->
  field "email" kvs = PStr e -> e <> "" ->
  (forall u, In u (users (committed w)) -> u_email u <> e) ->
  fst (create_user req w) =
    inr (jsonify [("message", PStr "User created successfully");
                  ("user_id", PInt (users_auto w));
                  ("instance_id", PStr (INSTANCE_ID (env w)))], 201%Z) /\
  users (committed (snd (create_user req w))) =
    (users (committed w) ++
       [UserRow (users_auto w) n e (clock w) (clock w)])%list /\
  logs (committed (snd (create_user req w))) =
    (logs (committed w) ++
       [LogRow (logs_auto w) "INFO"
               ("Created user: " ++ n ++ " (" ++ e ++ ")")%string
               (INSTANCE_ID (env w)) (clock w)])%list /\
  open_conns (snd (create_user req w)) = open_conns w.
Proof.
  intros Hf Hj Hn Hn0 He He0 Hfresh.
  destruct (create_user_run w req kvs n e Hf Hj Hn Hn0 He He0 Hfresh)
    as (w' & E & Hu & Hl & _ & Ho & _).
  rewrite E. cbn [fst snd]. auto.
Qed.

Lemma create_user_appends_row_witness :
  faults world0 = [] /\
  get_json john_request = inr (PDict john_body) /\
  field "name" john_body = PStr "John Doe" /\ "John Doe" <> "" /\
  field "email" john_body = PStr "john@example.com" /\
  "john@example.com" <> "" /\
  (forall u, In u (users (committed world0)) -> u_email u <> "john@example.com") /\
  fst (create_user john_request world0) =
    inr (jsonify [("message", PStr "User created successfully");
                  ("user_id", PInt 1);
                  ("instance_id", PStr "i-1")], 201%Z) /\
  users (committed (snd (create_user john_request world0))) = [john] /\
  logs (committed (snd (create_user john_request world0))) =
    [LogRow 1 "INFO" "Created user: John Doe (john@example.com)" "i-1" 1000] /\
  open_conns (snd (create_user john_request world0)) = [].
Proof.
  assert (Hn : "John Doe" <> "") by discriminate.
  assert (He : "john@example.com" <> "") by discriminate.
  assert (Hfresh : forall u, In u (users (committed world0)) ->
                             u_email u <> "john@example.com")
    by (intros u []).
  do 7 (split; [first [reflexivity | assumption]|]).
  exact (create_user_appends_row world0 john_request john_body
           "John Doe" "john@example.com"
           eq_refl eq_refl eq_refl Hn eq_refl He Hfresh).
Defined.

(** X2.  On a store that works, when no row has the next AUTO_INCREMENT
    value for id, the GET /users/id that follows a successful POST /users
    returns the row that was created: the name and email of the body. *)
Theorem create_then_get_round_trip
        (w : world) (req : request) (kvs : list (string * pyval)) (n e : string) :
  faults w = [] ->
  get_json req = inr (PDict kvs) ->
  field "name" kvs = PStr n -> n <> "" ->
  field "email" kvs = PStr e -> e <> "" ->
  (forall u, In u (users (committed w)) -> u_email u <> e) ->
  (forall u, In u (users (committed w)) -> u_id u <> users_auto w) ->
  fst (get_user (users_auto w) (snd (create_user req w))) =
    inr (jsonify [("user",
                   user_dict (UserRow (users_auto w) n e (clock w) (clock w)));
                  ("instance_id", PStr (INSTANCE_ID (env w)))], 200%Z).
Proof.
  intros Hf Hj Hn Hn0 He He0 Hfresh Hid.
  destruct (create_user_run w req kvs n e Hf Hj Hn Hn0 He He0 Hfresh)
    as (w' & E & Hu & _ & _ & _ & Hf' & Henv & _).
  rewrite E. cbn [snd].
  rewrite (get_user_present w' (users_auto w)
             (UserRow (users_auto w) n e (clock w) (clock w)) Hf').
  - rewrite Henv. reflexivity.
  - rewrite Hu. apply find_app_fresh; [exact Hid | reflexivity].
Qed.

Lemma create_then_get_round_trip_witness :
  faults world0 = [] /\
  get_json john_request = inr (PDict john_body) /\
  field "name" john_body = PStr "John Doe" /\ "John Doe" <> "" /\
  field "email" john_body = PStr "john@example.com" /\
  "john@example.com" <> "" /\
  (forall u, In u (users (committed world0)) -> u_email u <> "john@example.com") /\
  (forall u, In u (users (committed world0)) -> u_id u <> users_auto world0) /\
  fst (get_user 1 (snd (create_user john_request world0))) =
    inr (jsonify [("user", user_dict john); ("instance_id", PStr "i-1")], 200%Z).
Proof.
  assert (Hn : "John Doe" <> "") by discriminate.
  assert (He : "john@example.com" <> "") by discriminate.
  assert (Hfresh : forall u, In u (users (committed world0)) ->
                             u_email u <> "john@example.com")
    by (intros u []).
  assert (Hid : forall u, In u (users (committed world0)) ->
                          u_id u <> users_auto world0)
    by (intros u []).
  do 8 (split; [first [reflexivity | assumption]|]).
  exact (create_then_get_round_trip world0 john_request john_body
           "John Doe" "john@example.com"
           eq_refl eq_refl eq_refl Hn eq_refl He Hfresh Hid).
Defined.

(** ** Updating a user *)

Lemma find_map_set_name_email (id : Z) (n e : string) (now : Z)
      (l : list user_row) (old : user_row) :
  find (has_id id) l = Some old ->
  find (has_id id) (map (set_name_email id n e now) l) =
    Some (UserRow id n e (u_created_at old) now).
Proof.
  induction l as [|x r IH]; [discriminate|].
  cbn [find map].
  destruct (has_id id x) eqn:Hx.
  - intros H. injection H as <-.
    assert (Hid : u_id x = id) by (apply Z.eqb_eq; exact Hx).
    assert (Es : set_name_email id n e now x =
                 UserRow id n e (u_created_at x) now)
      by (unfold set_name_email; rewrite Hx, Hid; reflexivity).
    rewrite Es. unfold has_id at 1. cbn [u_id]. rewrite Z.eqb_refl. reflexivity.
  - assert (Es : set_name_email id n e now x = x)
      by (unfold set_name_email; rewrite Hx; reflexivity).
    rewrite Es, Hx. exact IH.
Qed.

Lemma existsb_other_email_false (id : Z) (e : string) (l : list user_row) :
  (forall u, In u l -> u_email u = e -> u_id u = id) ->
  existsb (fun u => (u_email u =? e) && negb (has_id id u)) l = false.
Proof.
  intros H. induction l as [|x r IH]; [reflexivity|].
  cbn. rewrite IH by (intros u Hu; apply H; right; exact Hu).
  rewrite orb_false_r.
  destruct (u_email x =? e) eqn:E; [|reflexivity].
  apply String.eqb_eq in E. unfold has_id.
  rewrite (H x (or_introl eq_refl) E), Z.eqb_refl. reflexivity.
Qed.

Lemma existsb_other_email_true (id : Z) (e : string) (l : list user_row) :
  (exists u, In u l /\ u_email u = e /\ u_id u <> id) ->
  existsb (fun u => (u_email u =? e) && negb (has_id id u)) l = true.
Proof.
  intros (u & Hin & He & Hid). apply existsb_exists. exists u.
  split; [exact Hin|]. apply andb_true_iff. split.
  - apply String.eqb_eq. exact He.
  - unfold has_id. apply negb_true_iff. apply Z.eqb_neq. exact Hid.
Qed.

Lemma differs_false (old : user_row) (n e : string) :
  u_name old <> n \/ u_email old <> e ->
  (u_name old =? n) && (u_email old =? e) = false.
Proof.
  intros [H|H]; apply String.eqb_neq in H; rewrite H;
    [reflexivity | apply andb_false_r].
Qed.

Lemma update_user_run
      (w : world) (user_id : Z) (req : request)
      (kvs : list (string * pyval)) (n e : string) (old : user_row) :
  faults w = [] ->
  get_json req = inr (PDict kvs) ->
  field "name" kvs = PStr n ->
  field "email" kvs = PStr e ->
  find (has_id user_id) (users (committed w)) = Some old ->
  u_name old <> n \/ u_email old <> e ->
  (forall u, In u (users (committed w)) -> u_email u = e -> u_id u = user_id) ->
  exists w',
    update_user user_id req w =
      (inr (jsonify [("message", PStr "User updated successfully");
                     ("instance_id", PStr (INSTANCE_ID (env w)))], 200%Z), w') /\
    users (committed w') =
      map (set_name_email user_id n e (clock w)) (users (committed w)) /\
    open_conns w' = open_conns w /\
    faults w' = [] /\ env w' = env w.
Proof.
  intros Hf Hj Hn He Hold Hdiff Hother.
  apply differs_false in Hdiff.
  apply existsb_other_email_false in Hother.
  destruct w as [cfg clk strict com ua la cs nc fs dg ac].
  cbn in Hf, Hold, Hother. subst fs.
  destruct kvs as [|kv kvs]; [discriminate Hn|].
  autounfold with app. rewrite Hj. sym. rewrite Hn, He. sym.
  rewrite Hold. sym. rewrite Hdiff. sym. rewrite Hother. sym.
  eexists. repeat split.
Qed.

(** X3.  On a store that works, a PUT /users/id that changes the name or
    the email of an existing row, to an email no other row has, is
    answered 200, and the GET /users/id that follows returns the new name
    and email with the old [created_at] and [updated_at] at the time of
    the PUT; no connection is left open. *)
Theorem update_then_get_round_trip
        (w : world) (user_id : Z) (req : request)
        (kvs : list (string * pyval)) (n e : string) (old : user_row) :
  faults w = [] ->
  get_json req = inr (PDict kvs) ->
  field "name" kvs = PStr n ->
  field "email" kvs = PStr e ->
  find (has_id user_id) (users (committed w)) = Some old ->
  u_name old <> n \/ u_email old <> e ->
  (forall u, In u (users (committed w)) -> u_email u = e -> u_id u = user_id) ->
  fst (update_user user_id req w) =
    inr (jsonify [("message", PStr "User updated successfully");
                  ("instance_id", PStr (INSTANCE_ID (env w)))], 200%Z) /\
  fst (get_user user_id (snd (update_user user_id req w))) =
    inr (jsonify [("user",
                   user_dict (UserRow user_id n e (u_created_at old) (clock w)));
                  ("instance_id", PStr (INSTANCE_ID (env w)))], 200%Z) /\
  open_conns (snd (update_user user_id req w)) = open_conns w.
Proof.
  intros Hf Hj Hn He Hold Hdiff Hother.
  destruct (update_user_run w user_id req kvs n e old
              Hf Hj Hn He Hold Hdiff Hother)
    as (w' & E & Hu & Ho & Hf' & Henv).
  rewrite E. cbn [fst snd]. split; [reflexivity|]. split; [|exact Ho].
  rewrite (get_user_present w' user_id
             (UserRow user_id n e (u_created_at old) (clock w)) Hf').
  - rewrite Henv. reflexivity.
  - rewrite Hu. apply find_map_set_name_email. exact Hold.
Qed.

(** X4.  On a store that works, a PUT /users/id whose email is the
    email of a row with another id is answered 409 with
    [{'error': 'Email already exists'}]; nothing is committed and no
    event is recorded. *)
Theorem update_user_email_collision
        (w : world) (user_id : Z) (req : request)
        (kvs : list (string * pyval)) (n e : string) (old : user_row) :
  faults w = [] ->
  get_json req = inr (PDict kvs) ->
  field "name" kvs = PStr n ->
  field "email" kvs = PStr e ->
  find (has_id user_id) (users (committed w)) = Some old ->
  u_email old <> e ->
  (exists u, In u (users (committed w)) /\ u_email u = e /\ u_id u <> user_id) ->
  fst (update_user user_id req w) =
    inr (error_body "Email already exists", 409%Z) /\
  committed (snd (update_user user_id req w)) = committed w /\
  audit_calls (snd (update_user user_id req w)) = audit_calls w.
Proof.
  intros Hf Hj Hn He Hold Hdiff Hother.
  assert (Hd : (u_name old =? n) && (u_email old =? e) = false)
    by (apply differs_false; right; exact Hdiff).
  apply existsb_other_email_true in Hother.
  destruct w as [cfg clk strict com ua la cs nc fs dg ac].
  cbn in Hf, Hold, Hother. subst fs.
  destruct kvs as [|kv kvs]; [discriminate Hn|].
  autounfold with app. rewrite Hj. sym. rewrite Hn, He. sym.
  rewrite Hold. sym. rewrite Hd. sym. rewrite Hother. sym.
  repeat split.
Qed.

(** X5.  On a store that works, a PUT /users/id that supplies the name
    and email the row already has changes no row, so [rowcount] is 0 and
    the handler answers 404 'User not found' although a row has the id;
    the tables are as they were and the connection is closed. *)
Theorem update_user_same_values_is_404
        (w : world) (user_id : Z) (req : request)
        (kvs : list (string * pyval)) (old : user_row) :
  faults w = [] ->
  get_json req = inr (PDict kvs) ->
  find (has_id user_id) (users (committed w)) = Some old ->
  field "name" kvs = PStr (u_name old) ->
  field "email" kvs = PStr (u_email old) ->
  fst (update_user user_id req w) = inr (error_body "User not found", 404%Z) /\
  committed (snd (update_user user_id req w)) = committed w /\
  open_conns (snd (update_user user_id req w)) = open_conns w.
Proof.
  intros Hf Hj Hold Hn He.
  destruct w as [cfg clk strict com ua la cs nc fs dg ac].
  cbn in Hf, Hold. subst fs.
  destruct kvs as [|kv kvs]; [discriminate Hn|].
  autounfold with app. rewrite Hj. sym. rewrite Hn, He. sym.
  rewrite Hold. sym. rewrite !String.eqb_refl. sym.
  repeat split.
Qed.

(** ** Deleting and listing *)

Lemma find_filter_other (id id' : Z) (l : list user_row) :
  id' <> id ->
  find (has_id id') (filter (fun u => negb (has_id id u)) l) =
  find (has_id id') l.
Proof.
  intros Hne. induction l as [|x r IH]; [reflexivity|].
  cbn. destruct (has_id id x) eqn:Hx; cbn.
  - assert (Hx' : has_id id' x = false).
    { unfold has_id in *. apply Z.eqb_eq in Hx. apply Z.eqb_neq. congruence. }
    rewrite Hx'. exact IH.
  - destruct (has_id id' x); [reflexivity | exact IH].
Qed.

Lemma get_user_by_table (w w' : world) (user_id : Z) :
  faults w = [] -> faults w' = [] -> env w' = env w ->
  find (has_id user_id) (users (committed w')) =
  find (has_id user_id) (users (committed w)) ->
  fst (get_user user_id w') = fst (get_user user_id w).
Proof.
  intros Hf Hf' Henv Hfind.
  destruct (find (has_id user_id) (users (committed w))) as [u|] eqn:E.
  - rewrite (get_user_present w' user_id u Hf' Hfind),
            (get_user_present w user_id u Hf E), Henv. reflexivity.
  - rewrite (get_user_absent w' user_id Hf' Hfind),
            (get_user_absent w user_id Hf E). reflexivity.
Qed.

Lemma delete_user_run (w : world) (user_id : Z) (u : user_row) :
  faults w = [] ->
  find (has_id user_id) (users (committed w)) = Some u ->
  exists w',
    delete_user user_id w =
      (inr (jsonify [("message", PStr "User deleted successfully");
                     ("instance_id", PStr (INSTANCE_ID (env w)))], 200%Z), w') /\
    users (committed w') =
      filter (fun u => negb (has_id user_id u)) (users (committed w)) /\
    logs (committed w') =
      (logs (committed w) ++
         [LogRow (logs_auto w) "INFO" ("Deleted user: " ++ dec user_id)%string
                 (INSTANCE_ID (env w)) (clock w)])%list /\
    open_conns w' = open_conns w /\
    faults w' = [] /\ env w' = env w.
Proof.
  intros Hf Hu. destruct w as [cfg clk strict com ua la cs nc fs dg ac].
  cbn in Hf, Hu. subst fs.
  autounfold with app. sym. rewrite (filter_find_nonzero _ _ _ Hu). sym.
  eexists; repeat split.
Qed.

(** X6.  On a store that works, DELETE /users/id of an existing id
    removes the rows with that id and no other, records the INFO row
    'Deleted user: id', and leaves no connection open; a second DELETE of
    the id is answered 404, and GET /users/other answers for every other
    id what it answered before. *)
Theorem delete_user_removes_only_that_id (w : world) (user_id : Z) :
  faults w = [] ->
  (exists u, In u (users (committed w)) /\ u_id u = user_id) ->
  users (committed (snd (delete_user user_id w))) =
    filter (fun u => negb (has_id user_id u)) (users (committed w)) /\
  logs (committed (snd (delete_user user_id w))) =
    (logs (committed w) ++
       [LogRow (logs_auto w) "INFO" ("Deleted user: " ++ dec user_id)%string
               (INSTANCE_ID (env w)) (clock w)])%list /\
  open_conns (snd (delete_user user_id w)) = open_conns w /\
  fst (delete_user user_id (snd (delete_user user_id w))) =
    inr (error_body "User not found", 404%Z) /\
  (forall other, other <> user_id ->
     fst (get_user other (snd (delete_user user_id w))) =
     fst (get_user other w)).
Proof.
  intros Hf Hex. apply find_some_present in Hex. destruct Hex as [u Hu].
  destruct (delete_user_run w user_id u Hf Hu)
    as (w' & E & Hus & Hl & Ho & Hf' & Henv).
  rewrite E. cbn [fst snd].
  split; [exact Hus|]. split; [exact Hl|]. split; [exact Ho|]. split.
  - apply delete_user_absent; [exact Hf'|]. rewrite Hus. apply find_after_delete.
  - intros other Hne. apply get_user_by_table; try assumption.
    rewrite Hus. apply find_filter_other. exact Hne.
Qed.

Section SortPerm.
Context {A : Type} (key : A -> Z).

Lemma insert_desc_perm x l : Permutation (x :: l) (insert_desc key x l).
Proof.
  induction l as [|y r IH]; cbn; [reflexivity|].
  destruct (key x <? key y)%Z; [|reflexivity].
  rewrite perm_swap. constructor. exact IH.
Qed.

Lemma sort_desc_perm l : Permutation l (sort_desc key l).
Proof.
  induction l as [|x r IH]; cbn; [constructor|].
  rewrite <- insert_desc_perm. constructor. exact IH.
Qed.

End SortPerm.

Lemma get_users_run (w : world) :
  faults w = [] ->
  exists w',
    get_users w =
      (inr (jsonify [("users",
                      PList (map user_dict
                                 (sort_desc u_created_at (users (committed w)))));
                     ("count", PInt (Z.of_nat (List.length (users (committed w)))));
                     ("instance_id", PStr (INSTANCE_ID (env w)))], 200%Z), w') /\
    users (committed w') = users (committed w) /\
    open_conns w' = open_conns w.
Proof.
  intros Hf. destruct w as [cfg clk strict com ua la cs nc fs dg ac].
  cbn in Hf. subst fs. autounfold with app. sym. eexists. repeat split.
Qed.

(** X7.  On a store that works, GET /users returns every row of [users]
    once (a permutation of the table), by [created_at] descending, with
    [count] their number; [users] is unchanged and no connection is left
    open. *)
Theorem get_users_lists_every_row_newest_first (w : world) :
  faults w = [] ->
  exists rows,
    fst (get_users w) =
      inr (jsonify [("users", PList (map user_dict rows));
                    ("count", PInt (Z.of_nat (List.length rows)));
                    ("instance_id", PStr (INSTANCE_ID (env w)))], 200%Z) /\
    Permutation (users (committed w)) rows /\
    StronglySorted (desc_by u_created_at) rows /\
    users (committed (snd (get_users w))) = users (committed w) /\
    open_conns (snd (get_users w)) = open_conns w.
Proof.
  intros Hf. destruct (get_users_run w Hf) as (w' & E & Hu & Ho).
  exists (sort_desc u_created_at (users (committed w))).
  rewrite E. cbn [fst snd]. rewrite sort_desc_length.
  split; [reflexivity|]. split; [apply sort_desc_perm|].
  split; [apply sort_desc_sorted|]. split; assumption.
Qed.

(** ** When the store fails *)

Lemma get_db_connection_fails (w : world) (x : exn) (fs : list (option exn)) :
  faults w = Some x :: fs ->
  get_db_connection w =
    (inl x,
     set_diag (diag w ++ [("Database connection error: " ++ exn_str x)%string])
              (set_faults fs w)).
Proof.
  intros Hf. destruct w as [cfg clk strict com ua la cs nc fs0 dg ac].
  cbn in Hf. subst fs0. reflexivity.
Qed.

(** The [except Exception] branch of a view: one ERROR event, then 500
    with the text of the exception. *)
Lemma log_error_then_500 (msg text : string) (w1 : world) :
  exists w',
    (log_event "ERROR" msg ;; ret (error_body text, 500%Z)) w1 =
      (inr (error_body text, 500%Z), w') /\
    audit_calls w' = (audit_calls w1 ++ [("ERROR", msg)])%list /\
    users (committed w') = users (committed w1).
Proof.
  destruct (log_event_spec "ERROR" msg w1) as (w' & E & Ha & Hu & _).
  exists w'. unfold bind, ret. rewrite E. auto.
Qed.

(** ** What the statements and the driver leave alone *)

Section Inert.
Context {X : Type} (obs : world -> X).
Hypothesis Hin : inert obs.

Lemma inert_driver_call : preserves obs driver_call.
Proof.
  destruct Hin as (_ & Hf & _).
  intros w. unfold driver_call. destruct (faults w) as [|[e|] r]; cbn; auto.
Qed.

Lemma inert_conn_find c : preserves obs (conn_find c).
Proof.
  intros w. unfold conn_find.
  destruct (conn_get c (conns w)) as [cn|]; [|reflexivity].
  destruct (c_open cn); reflexivity.
Qed.

Lemma inert_close c : preserves obs (close c).
Proof.
  destruct Hin as (Hc & _).
  intros w. unfold close.
  destruct (conn_get c (conns w)) as [cn|]; [|reflexivity].
  destruct (c_open cn); cbn; auto.
Qed.

Lemma inert_logger_write line : preserves obs (logger_write line).
Proof.
  destruct Hin as (_ & _ & Hd & _). apply preserves_modify. intros w. apply Hd.
Qed.

Lemma inert_get_db_connection : preserves obs get_db_connection.
Proof.
  pose proof Hin as (Hc & _).
  unfold get_db_connection, pymysql_connect.
  apply preserves_try.
  - apply preserves_bind; [apply inert_driver_call|].
    intros _ w. cbn. apply Hc.
  - intros e. apply preserves_bind; [apply inert_logger_write|].
    intros _. apply preserves_raise.
Qed.

Lemma inert_query {A} c (stmt : tables -> M (A * tables)) :
  (forall t, preserves obs (stmt t)) -> preserves obs (query c stmt).
Proof.
  pose proof Hin as (Hc & _).
  intros H. unfold query.
  apply preserves_bind; [apply inert_conn_find|]. intros cn.
  apply preserves_bind; [apply inert_driver_call|]. intros _.
  apply preserves_bind; [apply H|]. intros r.
  apply preserves_bind; [|intros; apply preserves_ret].
  apply preserves_modify. intros w. apply Hc.
Qed.

Lemma inert_sql_insert_user n e t : preserves obs (sql_insert_user n e t).
Proof.
  pose proof Hin as (_ & _ & _ & Hu & _).
  unfold sql_insert_user.
  repeat (apply preserves_bind; [solve [auto with frame]|]; intros).
  apply preserves_if; [auto with frame|].
  repeat (apply preserves_bind; [solve [auto with frame]|]; intros).
  apply preserves_bind; [|intros; apply preserves_ret].
  apply preserves_modify. intros w. apply Hu.
Qed.

Lemma inert_sql_update_user n e id t : preserves obs (sql_update_user n e id t).
Proof.
  unfold sql_update_user.
  repeat (apply preserves_bind; [solve [auto with frame]|]; intros).
  destruct (find (has_id id) (users t)); auto with frame.
  repeat (apply preserves_bind; auto with frame; intros).
Qed.

Lemma inert_sql_insert_log l m i t : preserves obs (sql_insert_log l m i t).
Proof.
  pose proof Hin as (_ & _ & _ & _ & Hl).
  unfold sql_insert_log.
  repeat (apply preserves_bind; [solve [auto with frame]|]; intros).
  apply preserves_bind; [|intros; apply preserves_ret].
  apply preserves_modify. intros w. apply Hl.
Qed.

Lemma inert_sql_select_logs lv lim t : preserves obs (sql_select_logs lv lim t).
Proof. unfold sql_select_logs. apply preserves_if; auto with frame. Qed.

Lemma inert_execute_insert_user c n e : preserves obs (execute_insert_user c n e).
Proof.
  unfold execute_insert_user.
  repeat (apply preserves_bind; [solve [auto with frame]|]; intros).
  apply inert_query. intros. apply inert_sql_insert_user.
Qed.

Lemma inert_execute_update_user c n e id :
  preserves obs (execute_update_user c n e id).
Proof.
  unfold execute_update_user.
  repeat (apply preserves_bind; [solve [auto with frame]|]; intros).
  apply inert_query. intros. apply inert_sql_update_user.
Qed.

Lemma inert_execute_delete_user c id : preserves obs (execute_delete_user c id).
Proof.
  unfold execute_delete_user, sql_delete_user.
  apply inert_query. auto with frame.
Qed.

Lemma inert_execute_select_user c id : preserves obs (execute_select_user c id).
Proof.
  unfold execute_select_user, sql_select_user.
  apply inert_query. auto with frame.
Qed.

Lemma inert_execute_select_users c : preserves obs (execute_select_users c).
Proof.
  unfold execute_select_users, sql_select_users.
  apply inert_query. auto with frame.
Qed.

Lemma inert_execute_select_logs c lv lim :
  preserves obs (execute_select_logs c lv lim).
Proof.
  unfold execute_select_logs. apply inert_query.
  intros. apply inert_sql_select_logs.
Qed.

Lemma inert_execute_insert_log c l m i :
  preserves obs (execute_insert_log c l m i).
Proof.
  unfold execute_insert_log. apply inert_query.
  intros. apply inert_sql_insert_log.
Qed.

Lemma inert_execute_create_table c : preserves obs (execute_create_table c).
Proof.
  unfold execute_create_table, sql_create_table.
  apply inert_query. auto with frame.
Qed.

Lemma inert_dict_get d k : preserves obs (dict_get d k).
Proof. destruct d; cbn; auto with frame. Qed.

End Inert.

Section Fixed.
Context {X : Type} (obs : world -> X).
Hypothesis Hfix : fixed obs.

Lemma fixed_commit c : preserves obs (commit c).
Proof.
  destruct Hfix as (Hin & Hc & _).
  unfold commit.
  apply preserves_bind; [apply inert_conn_find|]. intros cn.
  apply preserves_bind; [apply inert_driver_call; exact Hin|]. intros _.
  apply preserves_modify. intros w. apply Hc.
Qed.

Lemma fixed_log_event level message : preserves obs (log_event level message).
Proof.
  destruct Hfix as (Hin & _ & Ha).
  unfold log_event.
  apply preserves_bind; [apply preserves_modify; intros w; apply Ha|]. intros _.
  apply preserves_try.
  - apply preserves_bind; [apply inert_get_db_connection; exact Hin|]. intros c.
    apply preserves_bind; [apply preserves_gets|]. intros i.
    apply preserves_bind; [apply inert_execute_insert_log; exact Hin|]. intros _.
    apply preserves_bind; [apply fixed_commit|]. intros _.
    apply inert_close. exact Hin.
  - intros e. apply inert_logger_write. exact Hin.
Qed.

End Fixed.

Lemma inert_committed : inert committed.
Proof. repeat split. Qed.

Lemma inert_users_table : inert users_table.
Proof. repeat split. Qed.

Lemma fixed_setting : fixed setting.
Proof. repeat split. Qed.

Lemma log_event_keeps_setting level message w :
  env (snd (log_event level message w)) = env w /\
  clock (snd (log_event level message w)) = clock w.
Proof.
  pose proof (fixed_log_event setting fixed_setting level message w) as H.
  unfold setting in H. injection H as He Hc _. auto.
Qed.

Lemma try_bind_fail {A B} (m : M A) (k : A -> M B) (h : exn -> M B)
      (w w1 : world) (x : exn) :
  m w = (inl x, w1) -> try_except (bind m k) h w = h x w1.
Proof. intros E. unfold try_except, bind. rewrite E. reflexivity. Qed.

Lemma fails_with_intro (view : M response) (w w1 : world)
      (msg text : string) :
  view w = (log_event "ERROR" msg ;; ret (error_body text, 500%Z)) w1 ->
  audit_calls w1 = audit_calls w ->
  users (committed w1) = users (committed w) ->
  fails_with view w (error_body text, 500%Z) ("ERROR", msg).
Proof.
  intros E Ha Hu. unfold fails_with. rewrite E.
  destruct (log_error_then_500 msg text w1) as (w' & E' & Ha' & Hu').
  rewrite E'. cbn [fst snd]. rewrite Ha', Hu', Ha, Hu. auto.
Qed.

(** X8.  When the connection is refused with exception [x], List users,
    Get user and Delete user answer 500 with [{'error': str(x)}] after
    one ERROR event that names the operation; Health answers 500 with
    status 'unhealthy' and [str(x)] as [database]; List logs answers 500
    with [{'error': str(x)}], records no event and commits nothing.
    [users] is unchanged throughout. *)
Theorem unreachable_store_is_500
        (w : world) (x : exn) (fs : list (option exn))
        (user_id : Z) (req : request) :
  faults w = Some x :: fs ->
  fails_with get_users w (error_body (exn_str x), 500%Z)
             ("ERROR", "Error retrieving users: " ++ exn_str x) /\
  fails_with (get_user user_id) w (error_body (exn_str x), 500%Z)
             ("ERROR",
              "Error retrieving user " ++ dec user_id ++ ": " ++ exn_str x) /\
  fails_with (delete_user user_id) w (error_body (exn_str x), 500%Z)
             ("ERROR",
              "Error deleting user " ++ dec user_id ++ ": " ++ exn_str x) /\
  fails_with health w
             (jsonify [("status", PStr "unhealthy");
                       ("database", PStr (exn_str x));
                       ("instance_id", PStr (INSTANCE_ID (env w)));
                       ("timestamp", PStr (isoformat (clock w)))], 500%Z)
             ("ERROR", "Health check failed: " ++ exn_str x) /\
  fst (get_logs req w) = inr (error_body (exn_str x), 500%Z) /\
  audit_calls (snd (get_logs req w)) = audit_calls w /\
  committed (snd (get_logs req w)) = committed w.
Proof.
  intros Hf. pose proof (get_db_connection_fails w x fs Hf) as E.
  split; [|split; [|split; [|split]]].
  - apply (fails_with_intro _ _ _ _ _ (try_bind_fail _ _ _ _ _ _ E));
      reflexivity.
  - apply (fails_with_intro _ _ _ _ _ (try_bind_fail _ _ _ _ _ _ E));
      reflexivity.
  - apply (fails_with_intro _ _ _ _ _ (try_bind_fail _ _ _ _ _ _ E));
      reflexivity.
  - unfold fails_with, health. rewrite (try_bind_fail _ _ _ _ _ _ E).
    set (w1 := set_diag _ _).
    set (msg := ("Health check failed: " ++ exn_str x)%string).
    destruct (log_event_spec "ERROR" msg w1) as (w' & E' & Ha & Hu & _).
    destruct (log_event_keeps_setting "ERROR" msg w1) as [He Hc].
    rewrite E' in He, Hc. cbn [snd] in He, Hc.
    unfold bind, gets, ret. rewrite E'. cbn [fst snd].
    rewrite He, Hc, Ha, Hu. repeat split.
  - unfold get_logs. rewrite (try_bind_fail _ _ _ _ _ _ E). repeat split.
Qed.

Create HintDb prim.

#[local] Hint Unfold get_db_connection pymysql_connect
  execute_insert_log execute_insert_user execute_update_user
  execute_delete_user execute_select_user execute_select_users
  execute_select_logs execute_create_table query commit close conn_find dict_get
  sql_insert_log sql_insert_user sql_update_user sql_delete_user
  sql_select_user sql_select_users sql_select_logs sql_create_table
  try_except bind ret raise gets modify lift logger_write driver_call
  set_conns set_faults set_committed set_logs_auto set_users_auto set_diag
  set_audit_calls error_body jsonify : prim.

Ltac symx :=
  repeat (cbn -[append dec str_contains isoformat log_event py_str];
          rewrite ?Nat.eqb_refl).

(** The handler of Create and Update once the exception is caught. *)
Lemma create_user_statement_fails
      (w : world) (req : request) (kvs : list (string * pyval)) (n e : string)
      (x : exn) (fs : list (option exn)) :
  faults w = None :: Some x :: fs ->
  get_json req = inr (PDict kvs) ->
  field "name" kvs = PStr n -> n <> "" ->
  field "email" kvs = PStr e -> e <> "" ->
  create_user req w =
    (if is_IntegrityError x
     then ret (integrity_response x)
     else log_event "ERROR" ("Error creating user: " ++ exn_str x) ;;
          ret (error_body (exn_str x), 500%Z))
      (set_conns ((next_conn w, Conn true (committed w)) :: conns w)
                 (S (next_conn w)) (set_faults fs w)).
Proof.
  intros Hf Hj Hn Hn0 He He0.
  apply String.eqb_neq in Hn0, He0.
  destruct w as [cfg clk strict com ua la cs nc fs0 dg ac].
  cbn in Hf. subst fs0.
  destruct kvs as [|kv kvs]; [discriminate Hn|].
  unfold create_user, integrity_response. autounfold with prim.
  rewrite Hj. symx. rewrite Hn, He. symx. rewrite Hn0, He0. symx.
  destruct (is_IntegrityError x); [|reflexivity].
  destruct (str_contains "Duplicate entry" (exn_str x)); reflexivity.
Qed.

Lemma update_user_statement_fails
      (w : world) (user_id : Z) (req : request) (kvs : list (string * pyval))
      (n e : string) (x : exn) (fs : list (option exn)) :
  faults w = None :: Some x :: fs ->
  get_json req = inr (PDict kvs) ->
  field "name" kvs = PStr n ->
  field "email" kvs = PStr e ->
  update_user user_id req w =
    (if is_IntegrityError x
     then ret (integrity_response x)
     else log_event "ERROR"
            ("Error updating user " ++ dec user_id ++ ": " ++ exn_str x) ;;
          ret (error_body (exn_str x), 500%Z))
      (set_conns ((next_conn w, Conn true (committed w)) :: conns w)
                 (S (next_conn w)) (set_faults fs w)).
Proof.
  intros Hf Hj Hn He.
  destruct w as [cfg clk strict com ua la cs nc fs0 dg ac].
  cbn in Hf. subst fs0.
  destruct kvs as [|kv kvs]; [discriminate Hn|].
  unfold update_user, integrity_response. autounfold with prim.
  rewrite Hj. symx. rewrite Hn, He. symx.
  destruct (is_IntegrityError x); [|reflexivity].
  destruct (str_contains "Duplicate entry" (exn_str x)); reflexivity.
Qed.

(** X9.  When the store accepts the connection and the statement of
    Create or Update raises [x]: an IntegrityError is answered without
    any event and without a commit, 409 'Email already exists' when
    [str(x)] contains 'Duplicate entry' and 500 with [str(x)] otherwise;
    any other exception is answered 500 with [str(x)] after one ERROR
    event, even when its text contains 'Duplicate entry'. *)
Theorem statement_error_classification
        (w : world) (user_id : Z) (req : request) (kvs : list (string * pyval))
        (n e : string) (x : exn) (fs : list (option exn)) :
  faults w = None :: Some x :: fs ->
  get_json req = inr (PDict kvs) ->
  field "name" kvs = PStr n -> n <> "" ->
  field "email" kvs = PStr e -> e <> "" ->
  (is_IntegrityError x = true ->
   fst (create_user req w) = inr (integrity_response x) /\
   audit_calls (snd (create_user req w)) = audit_calls w /\
   committed (snd (create_user req w)) = committed w /\
   fst (update_user user_id req w) = inr (integrity_response x) /\
   audit_calls (snd (update_user user_id req w)) = audit_calls w /\
   committed (snd (update_user user_id req w)) = committed w)
  /\
  (is_IntegrityError x = false ->
   fails_with (create_user req) w (error_body (exn_str x), 500%Z)
              ("ERROR", "Error creating user: " ++ exn_str x) /\
   fails_with (update_user user_id req) w (error_body (exn_str x), 500%Z)
              ("ERROR",
               "Error updating user " ++ dec user_id ++ ": " ++ exn_str x)).
Proof.
  intros Hf Hj Hn Hn0 He He0.
  pose proof (create_user_statement_fails w req kvs n e x fs
                Hf Hj Hn Hn0 He He0) as Ec.
  pose proof (update_user_statement_fails w user_id req kvs n e x fs
                Hf Hj Hn He) as Eu.
  split; intros Hi; rewrite Hi in Ec, Eu.
  - rewrite Ec, Eu. repeat split.
  - split; eapply fails_with_intro; try eassumption; reflexivity.
Qed.

(** ** Bodies the handlers cannot use *)

(** X10.  When [request.get_json()] raises (a body that does not parse),
    Create and Update answer 500, not 400, with the text of the
    exception, after one ERROR event; [users] is unchanged. *)
Theorem unparsable_body_is_500
        (w : world) (user_id : Z) (req : request) (x : exn) :
  get_json req = inl x ->
  is_IntegrityError x = false ->
  fails_with (create_user req) w (error_body (exn_str x), 500%Z)
             ("ERROR", "Error creating user: " ++ exn_str x) /\
  fails_with (update_user user_id req) w (error_body (exn_str x), 500%Z)
             ("ERROR",
              "Error updating user " ++ dec user_id ++ ": " ++ exn_str x).
Proof.
  intros Hj Hi.
  split; eapply fails_with_intro; try reflexivity.
  - unfold create_user, try_except, bind at 1, lift. rewrite Hj, Hi. reflexivity.
  - unfold update_user, try_except, bind at 1, lift. rewrite Hj, Hi. reflexivity.
Qed.

(** X11.  When the body parses to a truthy value that is not an object
    (a non-empty list, a number, a string), [data.get] raises and Create
    and Update answer 500 with "'<type>' object has no attribute 'get'",
    after one ERROR event; [users] is unchanged. *)
Theorem non_object_body_is_500
        (w : world) (user_id : Z) (req : request) (data : pyval) :
  get_json req = inr data ->
  truthy data = true ->
  is_dict data = false ->
  fails_with (create_user req) w (error_body (no_get_attribute data), 500%Z)
             ("ERROR", "Error creating user: " ++ no_get_attribute data) /\
  fails_with (update_user user_id req) w
             (error_body (no_get_attribute data), 500%Z)
             ("ERROR",
              "Error updating user " ++ dec user_id ++ ": " ++
              no_get_attribute data).
Proof.
  intros Hj Ht Hd.
  split; eapply fails_with_intro; try reflexivity.
  - unfold create_user, try_except, bind at 1, lift. rewrite Hj.
    cbn beta iota. rewrite Ht. cbn [negb].
    destruct data; try discriminate Hd; reflexivity.
  - unfold update_user, try_except, bind at 1, lift. rewrite Hj.
    cbn beta iota. rewrite Ht. cbn [negb].
    destruct data; try discriminate Hd; reflexivity.
Qed.

(** ** The statuses a view can answer *)

Lemma wp_any {A} (m : M A) (Q : result A -> world -> Prop) w :
  (forall r w1, Q r w1) -> wp m Q w.
Proof. intros H. apply H. Qed.

Ltac wp_blind :=
  match goal with
  | |- wp (try_except _ _) _ _ => apply wp_try
  | |- wp (bind _ _) _ _ => apply wp_bind
  | |- wp (ret _) _ _ => apply wp_ret
  | |- wp (gets _) _ _ => apply wp_gets
  | |- wp (lift ?r) _ _ => apply wp_lift; destruct r
  | |- wp (log_event _ _) _ _ => apply wp_log_event; intros ? _
  | |- wp (if ?b then _ else _) _ _ => destruct b
  | |- wp (match ?x with _ => _ end) _ _ => destruct x
  | |- wp _ _ _ => apply wp_any; intros [?|?] ?
  end; cbn beta iota.

Ltac status_leaf := do 2 eexists; split; [reflexivity|]; cbn; auto 10.

Lemma answers_among_wp (view : M response) (codes : list Z) :
  (forall w, wp view (fun r _ => exists body st,
                          r = inr (body, st) /\ In st codes) w) ->
  answers_among view codes.
Proof. exact (fun H => H). Qed.

(** X12.  Whatever the request and whatever the store does, every view
    returns a response (no exception leaves a view), and its status is
    one of: 200 for Home and Info; 200, 500 for Health, List users and
    List logs; 200, 404, 500 for Get and Delete; 201, 400, 409, 500 for
    Create; 200, 400, 404, 409, 500 for Update. *)
Theorem statuses_of_the_views (user_id : Z) (req : request) :
  answers_among home [200%Z] /\
  answers_among info [200%Z] /\
  answers_among health [200%Z; 500%Z] /\
  answers_among get_users [200%Z; 500%Z] /\
  answers_among (get_logs req) [200%Z; 500%Z] /\
  answers_among (get_user user_id) [200%Z; 404%Z; 500%Z] /\
  answers_among (delete_user user_id) [200%Z; 404%Z; 500%Z] /\
  answers_among (create_user req) [201%Z; 400%Z; 409%Z; 500%Z] /\
  answers_among (update_user user_id req) [200%Z; 400%Z; 404%Z; 409%Z; 500%Z].
Proof.
  split; [|split; [|split; [|split; [|split; [|split; [|split; [|split]]]]]]];
    apply answers_among_wp; intros w.
  - unfold home. repeat wp_blind; status_leaf.
  - unfold info. repeat wp_blind; status_leaf.
  - unfold health. repeat wp_blind; status_leaf.
  - unfold get_users. repeat wp_blind; status_leaf.
  - unfold get_logs. repeat wp_blind; status_leaf.
  - unfold get_user. repeat wp_blind; status_leaf.
  - unfold delete_user. repeat wp_blind; status_leaf.
  - unfold create_user. repeat wp_blind; status_leaf.
  - unfold update_user. repeat wp_blind; status_leaf.
Qed.

(** ** Who writes to [users] *)

Create HintDb ut.

#[local] Hint Resolve preserves_ret preserves_raise preserves_lift preserves_gets
  preserves_bind preserves_try preserves_if
  inert_users_table inert_committed
  inert_driver_call inert_conn_find inert_close inert_get_db_connection
  inert_execute_insert_user inert_execute_update_user inert_execute_delete_user
  inert_execute_select_user inert_execute_select_users
  inert_execute_select_logs inert_dict_get : ut.

Lemma wp_log_event_users level message (Q : result unit -> world -> Prop) w :
  (forall w1, users_table w1 = users_table w -> Q (inr tt) w1) ->
  wp (log_event level message) Q w.
Proof.
  intros H. unfold wp.
  destruct (log_event_spec level message w) as (w' & E & _ & Hu & _).
  rewrite E. apply H. exact Hu.
Qed.

(** A commit that fails has published nothing; one that succeeds was made
    on an open connection, which [close] will then accept. *)
Lemma wp_commit_users c (Q : result unit -> world -> Prop) w :
  (forall w1, is_open c w1 -> Q (inr tt) w1) ->
  (forall e w1, users_table w1 = users_table w -> Q (inl e) w1) ->
  wp (commit c) Q w.
Proof.
  intros Hok Hfail. unfold wp, commit, bind.
  pose proof (inert_conn_find users_table c w) as H1.
  assert (Ho : forall cn w1, conn_find c w = (inr cn, w1) ->
                             w1 = w /\ is_open c w).
  { unfold conn_find, is_open. intros cn w1.
    destruct (conn_get c (conns w)) as [cn'|]; [|discriminate].
    destruct (c_open cn') eqn:Eo; [|discriminate].
    intros E. injection E as -> ->. eauto. }
  destruct (conn_find c w) as [[e|cn] w1]; cbn [fst snd] in *; [auto|].
  destruct (Ho cn w1 eq_refl) as [-> Hopen].
  pose proof (inert_driver_call users_table inert_users_table w) as H2.
  assert (Hc : conns (snd (driver_call w)) = conns w).
  { unfold driver_call. destruct (faults w) as [|[e|] r]; reflexivity. }
  destruct (driver_call w) as [[e|[]] w2]; cbn [fst snd] in *.
  - apply Hfail. congruence.
  - apply Hok. unfold is_open in *. cbn. rewrite Hc. exact Hopen.
Qed.

Lemma wp_close_open c (Q : result unit -> world -> Prop) w :
  is_open c w ->
  (forall w1, users_table w1 = users_table w -> Q (inr tt) w1) ->
  wp (close c) Q w.
Proof.
  intros (cn & Hc & Ho) H. unfold wp, close. rewrite Hc, Ho. cbn [fst snd].
  apply H. reflexivity.
Qed.

Ltac wp_users :=
  match goal with
  | |- wp (try_except _ _) _ _ => apply wp_try
  | |- wp (bind _ _) _ _ => apply wp_bind
  | |- wp (ret _) _ _ => apply wp_ret
  | |- wp (gets _) _ _ => apply wp_gets
  | |- wp (lift ?r) _ _ => apply wp_lift; destruct r
  | |- wp (log_event _ _) _ _ => apply wp_log_event_users; intros ? ?
  | |- wp (commit _) _ _ => apply wp_commit_users; [intros ? ? | intros ? ? ?]
  | H : is_open ?c ?w |- wp (close ?c) _ ?w =>
      apply (wp_close_open c _ w H); intros ? ?
  | |- wp (if ?b then _ else _) _ _ => destruct b
  | |- wp (match ?x with _ => _ end) _ _ => destruct x
  | |- wp _ _ _ =>
      apply (wp_preserves users_table);
      [solve [auto with ut] | intros [?|?] ? ?]
  end; cbn beta iota.

Ltac users_leaf :=
  first
    [ congruence
    | do 2 eexists; split; [reflexivity|];
      first [ intros _; congruence
            | let K := fresh in intros K; exfalso; apply K; reflexivity ] ].

Lemma never_writes_users_wp (view : M response) :
  (forall w, wp view (fun _ w' => users_table w' = users_table w) w) ->
  never_writes_users view.
Proof. exact (fun H => H). Qed.

Lemma writes_users_only_with_wp (view : M response) (ok : Z) :
  (forall w, wp view (fun r w' => exists body st,
                          r = inr (body, st) /\
                          (st <> ok -> users_table w' = users_table w)) w) ->
  writes_users_only_with view ok.
Proof. exact (fun H => H). Qed.

(** X13.  Whatever the store does, Home, Info, Health, List users, Get
    user and List logs never change the [users] table, and Create, Update
    and Delete change it only when they answer 201, 200 and 200: an
    error answer means that [users] is as it was. *)
Theorem users_change_only_on_success (user_id : Z) (req : request) :
  never_writes_users home /\
  never_writes_users info /\
  never_writes_users health /\
  never_writes_users get_users /\
  never_writes_users (get_user user_id) /\
  never_writes_users (get_logs req) /\
  writes_users_only_with (create_user req) 201 /\
  writes_users_only_with (update_user user_id req) 200 /\
  writes_users_only_with (delete_user user_id) 200.
Proof.
  split; [|split; [|split; [|split; [|split; [|split; [|split; [|split]]]]]]];
    first [apply never_writes_users_wp | apply writes_users_only_with_wp];
    intros w.
  - unfold home. repeat wp_users; users_leaf.
  - unfold info. repeat wp_users; users_leaf.
  - unfold health. repeat wp_users; users_leaf.
  - unfold get_users. repeat wp_users; users_leaf.
  - unfold get_user. repeat wp_users; users_leaf.
  - unfold get_logs. repeat wp_users; users_leaf.
  - unfold create_user. repeat wp_users; users_leaf.
  - unfold update_user. repeat wp_users; users_leaf.
  - unfold delete_user. repeat wp_users; users_leaf.
Qed.

(** ** Connections on a store that works *)

(** X14.  On a store that works, Home, Health, List users, Get user and
    Delete user, and List logs with a limit the server accepts, close
    every connection they acquire: the open connections after the
    request are the ones from before. *)
Theorem working_store_leaves_no_connection
        (w : world) (user_id : Z) (req : request) :
  faults w = [] ->
  open_conns (snd (home w)) = open_conns w /\
  open_conns (snd (health w)) = open_conns w /\
  open_conns (snd (get_users w)) = open_conns w /\
  open_conns (snd (get_user user_id w)) = open_conns w /\
  open_conns (snd (delete_user user_id w)) = open_conns w /\
  ((0 <= args_get_int (arg_limit req) 100 <= 18446744073709551615)%Z ->
   open_conns (snd (get_logs req w)) = open_conns w).
Proof.
  intros Hf. destruct w as [cfg clk strict com ua la cs nc fs dg ac].
  cbn in Hf. subst fs.
  split; [|split; [|split; [|split; [|split]]]].
  - autounfold with app. sym. reflexivity.
  - autounfold with app. sym. reflexivity.
  - autounfold with app. sym. reflexivity.
  - autounfold with app. sym.
    destruct (find (has_id user_id) (users com)); sym; reflexivity.
  - autounfold with app. sym.
    destruct (Z.of_nat (List.length (filter (has_id user_id) (users com))) =? 0)%Z;
      sym; reflexivity.
  - intros [Hlo Hhi]. destruct req as [j lim lev].
    cbn [arg_limit] in Hlo, Hhi.
    apply Z.ltb_ge in Hlo, Hhi.
    autounfold with app. cbn [arg_limit arg_level].
    destruct lev as [lv|]; [destruct (lv =? "") eqn:El|]; sym;
      rewrite ?El, ?Hlo, ?Hhi; sym; reflexivity.
Qed.

(** ** Start-up and the event log *)

#[local] Hint Unfold init_database execute_create_table sql_create_table : app.

(** X15.  [init_database] never changes the committed tables.  When it
    returns, the logger has 'Database initialized successfully' and no
    connection is left open; when the store fails, the exception reaches
    the caller (unlike in [log_event]) after the logger got a 'Database
    initialization error' line.  A refused connection is raised as it
    is, and a store that works makes it return. *)
Theorem init_database_outcomes (w : world) :
  committed (snd (init_database w)) = committed w /\
  match fst (init_database w) with
  | inr _ =>
      diag (snd (init_database w)) =
        (diag w ++ ["Database initialized successfully"])%list /\
      open_conns (snd (init_database w)) = open_conns w
  | inl e =>
      exists pre,
        diag (snd (init_database w)) =
          (diag w ++ pre ++
             [("Database initialization error: " ++ exn_str e)%string])%list
  end /\
  (forall x fs, faults w = Some x :: fs -> fst (init_database w) = inl x) /\
  (faults w = [] -> fst (init_database w) = inr tt).
Proof.
  destruct w as [cfg clk strict com ua la cs nc fs dg ac].
  autounfold with app.
  destruct fs as [|[e|] fs]; sym.
  - destruct com. repeat split; intros; discriminate.
  - split; [reflexivity|]. split; [|split; intros].
    + exists [("Database connection error: " ++ exn_str e)%string].
      rewrite <- app_assoc. reflexivity.
    + congruence.
    + discriminate.
  - destruct fs as [|[e|] fs]; sym.
    + destruct com. repeat split; intros; discriminate.
    + split; [reflexivity|]. split; [exists []; reflexivity|].
      split; intros; discriminate.
    + destruct fs as [|[e|] fs]; sym.
      * destruct com. repeat split; intros; discriminate.
      * split; [reflexivity|]. split; [exists []; reflexivity|].
        split; intros; discriminate.
      * destruct fs as [|[e|] fs]; sym.
        -- destruct com. repeat split; intros; discriminate.
        -- split; [reflexivity|]. split; [exists []; reflexivity|].
           split; intros; discriminate.
        -- destruct com. repeat split; intros; discriminate.
Qed.

(** ** The constraints of the schema *)

Ltac symo :=
  repeat (cbn -[append dec str_contains isoformat literal sql_scalar py_str
                is_IntegrityError truthy field];
          rewrite ?Nat.eqb_refl).

Ltac split_on :=
  match goal with
  | |- context [match get_json ?r with _ => _ end] => destruct (get_json r)
  | |- context [truthy ?v] => destruct (truthy v)
  | |- context [match ?d with PNone => _ | _ => _ end] => is_var d; destruct d
  | |- context [match literal ?v with _ => _ end] => destruct (literal v)
  | |- context [match sql_scalar ?v with _ => _ end] => destruct (sql_scalar v)
  | |- context [not_null_insert _ ?o] => is_var o; destruct o
  | |- context [not_null_update _ _ ?o] => is_var o; destruct o
  | |- context [if is_IntegrityError ?x then _ else _] =>
      destruct (is_IntegrityError x)
  | |- context [if str_contains ?a ?b then _ else _] =>
      destruct (str_contains a b)
  | |- context [if existsb ?p ?l then _ else _] => destruct (existsb p l) eqn:?
  end.

Lemma create_user_effect (w : world) (req : request) :
  faults w = [] ->
  (users_table (snd (create_user req w)) = users_table w /\
   users_auto (snd (create_user req w)) = users_auto w)
  \/
  (exists n e,
      users_table (snd (create_user req w)) =
        (users_table w ++ [UserRow (users_auto w) n e (clock w) (clock w)])%list /\
      existsb (fun u => u_email u =? e) (users_table w) = false /\
      users_auto (snd (create_user req w)) = (users_auto w + 1)%Z).
Proof.
  intros Hf. destruct w as [cfg clk strict com ua la cs nc fs dg ac].
  cbn in Hf. subst fs. unfold users_table.
  autounfold with app. symo.
  repeat (split_on; symo);
    first [ left; split; reflexivity
          | right; do 2 eexists; split; [reflexivity|]; split; [eassumption|reflexivity] ].
Qed.

Lemma update_user_effect_any (w : world) (user_id : Z) (req : request) :
  faults w = [] ->
  users_auto (snd (update_user user_id req w)) = users_auto w /\
  (users_table (snd (update_user user_id req w)) = users_table w \/
   exists n e,
     users_table (snd (update_user user_id req w)) =
       map (set_name_email user_id n e (clock w)) (users_table w) /\
     existsb (fun u => (u_email u =? e) && negb (has_id user_id u))
             (users_table w) = false).
Proof.
  intros Hf. destruct w as [cfg clk strict com ua la cs nc fs dg ac].
  cbn in Hf. subst fs. unfold users_table.
  autounfold with app. symo.
  repeat (first [split_on | stuck]; symo);
    (split; [reflexivity|]);
    first [ left; reflexivity
          | right; do 2 eexists; split; [reflexivity | eassumption] ].
Qed.

Lemma delete_user_effect_any (w : world) (user_id : Z) :
  faults w = [] ->
  users_auto (snd (delete_user user_id w)) = users_auto w /\
  (users_table (snd (delete_user user_id w)) = users_table w \/
   users_table (snd (delete_user user_id w)) =
     filter (fun u => negb (has_id user_id u)) (users_table w)).
Proof.
  intros Hf. destruct w as [cfg clk strict com ua la cs nc fs dg ac].
  cbn in Hf. subst fs. unfold users_table.
  autounfold with app. sym.
  destruct (Z.of_nat (List.length (filter (has_id user_id) (users com))) =? 0)%Z;
    sym; auto.
Qed.

Section Keys.
Context {K : Type} (key : user_row -> K).

Lemma NoDup_map_filter (p : user_row -> bool) (l : list user_row) :
  NoDup (map key l) -> NoDup (map key (filter p l)).
Proof.
  induction l as [|x r IH]; cbn; [auto|].
  intros H. inversion H as [|? ? Hnot Hr]; subst.
  destruct (p x); cbn; [|auto].
  constructor; [|auto].
  intros Hin. apply Hnot. apply in_map_iff in Hin.
  destruct Hin as (u & Hu & Hin). apply filter_In in Hin.
  apply in_map_iff. exists u. tauto.
Qed.

Lemma NoDup_map_snoc (l : list user_row) (x : user_row) :
  NoDup (map key l) -> ~ In (key x) (map key l) ->
  NoDup (map key (l ++ [x])).
Proof.
  intros Hl Hx. rewrite map_app. cbn.
  apply NoDup_app; [exact Hl | repeat constructor; intros [] |].
  intros k Hk [<-|[]]. exact (Hx Hk).
Qed.

End Keys.

Lemma ids_after_update (id : Z) (n e : string) (now : Z) (l : list user_row) :
  map u_id (map (set_name_email id n e now) l) = map u_id l.
Proof.
  induction l as [|x r IH]; [reflexivity|].
  cbn. rewrite IH. unfold set_name_email.
  destruct (has_id id x); reflexivity.
Qed.

Lemma update_identity_without_id (id : Z) (n e : string) (now : Z)
      (l : list user_row) :
  ~ In id (map u_id l) -> map (set_name_email id n e now) l = l.
Proof.
  induction l as [|x r IH]; [reflexivity|].
  cbn. intros H. rewrite IH by tauto.
  unfold set_name_email, has_id.
  destruct (u_id x =? id)%Z eqn:E; [|reflexivity].
  apply Z.eqb_eq in E. tauto.
Qed.

Lemma other_email_false_inv (id : Z) (e : string) (l : list user_row) :
  existsb (fun u => (u_email u =? e) && negb (has_id id u)) l = false ->
  forall u, In u l -> u_email u = e -> u_id u = id.
Proof.
  intros Hex u Hu He.
  destruct (Z.eq_dec (u_id u) id) as [|Hne]; [assumption|].
  exfalso.
  assert (Ht : existsb (fun u => (u_email u =? e) && negb (has_id id u)) l = true).
  { apply existsb_exists. exists u. split; [exact Hu|].
    apply andb_true_iff. split; [apply String.eqb_eq; exact He|].
    apply negb_true_iff. apply Z.eqb_neq. exact Hne. }
  congruence.
Qed.

Lemma emails_after_update (id : Z) (n e : string) (now : Z) (l : list user_row) :
  NoDup (map u_id l) -> NoDup (map u_email l) ->
  existsb (fun u => (u_email u =? e) && negb (has_id id u)) l = false ->
  NoDup (map u_email (map (set_name_email id n e now) l)).
Proof.
  induction l as [|x r IH]; [constructor|].
  intros Hid Hem Hex.
  pose proof (other_email_false_inv id e (x :: r) Hex) as Hother.
  cbn [map existsb] in *.
  inversion Hid as [|? ? Hidx Hidr]; subst.
  inversion Hem as [|? ? Hemx Hemr]; subst.
  apply orb_false_iff in Hex. destruct Hex as [Hx Hr].
  unfold set_name_email at 1. destruct (has_id id x) eqn:Ex.
  - assert (Hxid : u_id x = id) by (apply Z.eqb_eq; exact Ex).
    rewrite update_identity_without_id by (rewrite <- Hxid; exact Hidx).
    cbn [u_email]. constructor; [|exact Hemr].
    intros Hin. apply in_map_iff in Hin. destruct Hin as (u & Hue & Hu).
    apply Hidx. apply in_map_iff. exists u. split; [|exact Hu].
    rewrite Hxid. apply Hother; [right; exact Hu | exact Hue].
  - assert (Hxe : u_email x <> e).
    { intros He. apply Z.eqb_neq in Ex. apply Ex.
      apply Hother; [left; reflexivity | exact He]. }
    constructor; [|apply IH; assumption].
    intros Hin. apply in_map_iff in Hin. destruct Hin as (u' & Hue & Hu').
    apply in_map_iff in Hu'. destruct Hu' as (u & Hset & Hu). subst u'.
    unfold set_name_email in Hue. destruct (has_id id u).
    + cbn in Hue. congruence.
    + apply Hemx. apply in_map_iff. exists u. tauto.
Qed.

(** X16.  On a store that works, Create, Update and Delete keep the
    constraints of the schema for every request: ids stay distinct and
    below the AUTO_INCREMENT counter, emails stay distinct. *)
Theorem schema_kept_by_writes (w : world) (user_id : Z) (req : request) :
  faults w = [] ->
  schema_ok w ->
  schema_ok (snd (create_user req w)) /\
  schema_ok (snd (update_user user_id req w)) /\
  schema_ok (snd (delete_user user_id w)).
Proof.
  intros Hf (Hid & Hem & Hlt). split; [|split].
  - destruct (create_user_effect w req Hf)
      as [[Hu Ha] | (n & e & Hu & Hex & Ha)];
      unfold schema_ok; rewrite Hu, Ha; [auto|].
    split; [|split].
    + apply NoDup_map_snoc; [exact Hid|]. cbn [u_id].
      intros Hin. apply in_map_iff in Hin. destruct Hin as (u & Hue & Hin).
      specialize (Hlt u Hin). lia.
    + apply NoDup_map_snoc; [exact Hem|]. cbn [u_email].
      intros Hin. apply in_map_iff in Hin. destruct Hin as (u & Hue & Hin).
      assert (Ht : existsb (fun u => u_email u =? e) (users_table w) = true).
      { apply existsb_exists. exists u. split; [exact Hin|].
        apply String.eqb_eq. exact Hue. }
      congruence.
    + intros u Hin. apply in_app_or in Hin. destruct Hin as [Hin|[<-|[]]].
      * specialize (Hlt u Hin). lia.
      * cbn [u_id]. lia.
  - destruct (update_user_effect_any w user_id req Hf)
      as (Ha & [Hu | (n & e & Hu & Hex)]);
      unfold schema_ok; rewrite Hu, Ha; [auto|].
    split; [|split].
    + rewrite ids_after_update. exact Hid.
    + apply emails_after_update; assumption.
    + intros u Hin. apply in_map_iff in Hin. destruct Hin as (u0 & <- & Hin).
      specialize (Hlt u0 Hin). unfold set_name_email.
      destruct (has_id user_id u0); exact Hlt.
  - destruct (delete_user_effect_any w user_id Hf) as (Ha & [Hu | Hu]);
      unfold schema_ok; rewrite Hu, Ha; [auto|].
    split; [|split].
    + apply NoDup_map_filter. exact Hid.
    + apply NoDup_map_filter. exact Hem.
    + intros u Hin. apply filter_In in Hin. apply Hlt. tauto.
Qed.

(** ** More on the event log and on Health *)

(** X17.  The limit of GET /logs is passed to the statement unchecked: a
    negative limit is answered 500 with an error body, in every world. *)
Theorem get_logs_refuses_bad_limit (req : request) (w : world) :
  (args_get_int (arg_limit req) 100 < 0)%Z ->
  exists msg, fst (get_logs req w) = inr (error_body msg, 500%Z).
Proof.
  intros Hneg.
  destruct (get_logs_shape req w) as [H | (rows & _ & Hlim & _)];
    [exact H | lia].
Qed.

(** X18.  [log_event] takes three round trips (connect, insert, commit).
    When none of them fails, the row with the level, the message,
    INSTANCE_ID and the current time is appended to [logs] under the
    next id, the logger stays silent and the connection is closed; when
    one of them fails, nothing is committed and the logger gets a
    'Logging error' line. *)
Theorem log_event_records_iff_three_round_trips
        (level message : string) (w : world) :
  if plan_clear 3 (faults w)
  then
    logs (committed (snd (log_event level message w))) =
      (logs (committed w) ++
         [LogRow (logs_auto w) level message (INSTANCE_ID (env w)) (clock w)])%list
    /\ logs_auto (snd (log_event level message w)) = (logs_auto w + 1)%Z
    /\ diag (snd (log_event level message w)) = diag w
    /\ open_conns (snd (log_event level message w)) = open_conns w
  else
    committed (snd (log_event level message w)) = committed w /\
    exists e pre,
      diag (snd (log_event level message w)) =
        (diag w ++ pre ++ [("Logging error: " ++ exn_str e)%string])%list.
Proof.
  destruct w as [cfg clk strict com ua la cs nc fs dg ac].
  autounfold with app.
  destruct fs as [|[e|] fs]; sym.
  - repeat split.
  - split; [reflexivity|].
    exists e, [("Database connection error: " ++ exn_str e)%string].
    rewrite <- app_assoc. reflexivity.
  - destruct fs as [|[e|] fs]; sym.
    + repeat split.
    + split; [reflexivity|]. exists e, []. reflexivity.
    + destruct fs as [|[e|] fs]; sym.
      * repeat split.
      * split; [reflexivity|]. exists e, []. reflexivity.
      * repeat split.
Qed.

Lemma get_db_connection_succeeds (w : world) :
  plan_clear 1 (faults w) = true ->
  get_db_connection w =
    (inr (next_conn w),
     set_conns ((next_conn w, Conn true (committed w)) :: conns w)
               (S (next_conn w)) (set_faults (tl (faults w)) w)).
Proof.
  intros Hp. destruct w as [cfg clk strict com ua la cs nc fs dg ac].
  cbn in Hp. destruct fs as [|[e|] fs]; [reflexivity | discriminate | reflexivity].
Qed.

(** X19.  When the connection succeeds, Health answers 200 with status
    'healthy' and database 'connected' and records the INFO event
    'Health check passed', whatever happens to that event's own insert
    afterwards; [users] is unchanged. *)
Theorem health_mirrors_the_connection (w : world) :
  plan_clear 1 (faults w) = true ->
  fst (health w) =
    inr (jsonify [("status", PStr "healthy");
                  ("database", PStr "connected");
                  ("instance_id", PStr (INSTANCE_ID (env w)));
                  ("timestamp", PStr (isoformat (clock w)))], 200%Z) /\
  audit_calls (snd (health w)) =
    (audit_calls w ++ [("INFO", "Health check passed")])%list /\
  users (committed (snd (health w))) = users (committed w).
Proof.
  intros Hp. pose proof (get_db_connection_succeeds w Hp) as E.
  assert (Hrun : exists w',
             health w =
               (inr (jsonify [("status", PStr "healthy");
                              ("database", PStr "connected");
                              ("instance_id", PStr (INSTANCE_ID (env w)));
                              ("timestamp", PStr (isoformat (clock w)))],
                     200%Z), w') /\
             audit_calls w' =
               (audit_calls w ++ [("INFO", "Health check passed")])%list /\
             users (committed w') = users (committed w)).
  { unfold health, try_except, bind at 1. rewrite E.
    set (w1 := set_conns _ _ _).
    assert (Ec : close (next_conn w) w1 =
                 (inr tt, set_conns (conn_put (next_conn w)
                                       (Conn false (committed w)) (conns w1))
                                    (next_conn w1) w1)).
    { unfold close, w1. cbn. rewrite Nat.eqb_refl. reflexivity. }
    unfold bind at 1. rewrite Ec.
    set (w2 := set_conns _ _ w1).
    destruct (log_event_spec "INFO" "Health check passed" w2)
      as (w' & E' & Ha & Hu & _).
    destruct (log_event_keeps_setting "INFO" "Health check passed" w2)
      as [He Hc].
    rewrite E' in He, Hc. cbn [snd] in He, Hc.
    unfold bind, gets, ret. rewrite E'. cbn [fst snd].
    rewrite He, Hc. exists w'. split; [reflexivity|]. split; assumption. }
  destruct Hrun as (w' & E' & Ha & Hu). rewrite E'. cbn [fst snd]. auto.
Qed.

Lemma sorted_app_order {A} (R : A -> A -> Prop) (a b : list A) :
  StronglySorted R (a ++ b) ->
  forall x y, In x a -> In y b -> R x y.
Proof.
  induction a as [|h t IH]; cbn; [intros _ x y []|].
  intros H x y Hx Hy. inversion H as [|? ? Hs Hall]; subst.
  destruct Hx as [<-|Hx].
  - rewrite Forall_forall in Hall. apply Hall. apply in_or_app. right. exact Hy.
  - exact (IH Hs x y Hx Hy).
Qed.

Lemma get_logs_run (req : request) (w : world) :
  faults w = [] ->
  (0 <= args_get_int (arg_limit req) 100 <= 18446744073709551615)%Z ->
  fst (get_logs req w) =
    inr (jsonify
           [("logs",
             PList (map log_dict
                        (firstn (Z.to_nat (args_get_int (arg_limit req) 100))
                                (sort_desc l_created_at
                                   (matching_logs (arg_level req)
                                                  (logs (committed w)))))));
            ("count",
             PInt (Z.of_nat
                     (List.length
                        (firstn (Z.to_nat (args_get_int (arg_limit req) 100))
                                (sort_desc l_created_at
                                   (matching_logs (arg_level req)
                                                  (logs (committed w))))))));
            ("instance_id", PStr (INSTANCE_ID (env w)))], 200%Z).
Proof.
  intros Hf [Hlo Hhi].
  destruct w as [cfg clk strict com ua la cs nc fs dg ac].
  cbn in Hf. subst fs. destruct req as [j lim lev].
  cbn [arg_limit arg_level] in *.
  apply Z.ltb_ge in Hlo, Hhi.
  autounfold with app. unfold matching_logs. cbn [arg_limit arg_level].
  destruct lev as [lv|]; [destruct (lv =? "") eqn:El|]; sym;
    rewrite ?El, ?Hlo, ?Hhi; sym; reflexivity.
Qed.

(** X20.  On a store that works and with a limit the server accepts,
    GET /logs answers 200 with the newest matching rows: as many as the
    limit allows (the minimum of the limit and the number of matching
    rows), each at least as new as every matching row that was left
    out. *)
Theorem get_logs_returns_the_newest (req : request) (w : world) :
  faults w = [] ->
  (0 <= args_get_int (arg_limit req) 100 <= 18446744073709551615)%Z ->
  exists rows rest,
    fst (get_logs req w) =
      inr (jsonify [("logs", PList (map log_dict rows));
                    ("count", PInt (Z.of_nat (List.length rows)));
                    ("instance_id", PStr (INSTANCE_ID (env w)))], 200%Z) /\
    Permutation (matching_logs (arg_level req) (logs (committed w)))
                (rows ++ rest) /\
    List.length rows =
      Nat.min (Z.to_nat (args_get_int (arg_limit req) 100))
              (List.length (matching_logs (arg_level req) (logs (committed w)))) /\
    (forall r r', In r rows -> In r' rest -> newest_first r r').
Proof.
  intros Hf Hlim.
  set (n := Z.to_nat (args_get_int (arg_limit req) 100)).
  set (sorted := sort_desc l_created_at
                   (matching_logs (arg_level req) (logs (committed w)))).
  exists (firstn n sorted), (skipn n sorted).
  split; [apply get_logs_run; assumption|].
  rewrite firstn_skipn. split; [apply sort_desc_perm|]. split.
  - rewrite length_firstn. unfold sorted. rewrite sort_desc_length. reflexivity.
  - apply sorted_app_order. rewrite firstn_skipn. apply sort_desc_sorted.
Qed.

(** ** The connection itself *)

(** X21.  [get_db_connection] never changes the committed tables.  When
    it returns, the handle is new, the connection is open and its
    transaction sees the committed tables, and the logger is silent;
    when [pymysql.connect] raises [x], no connection object is added,
    the logger gets 'Database connection error: str(x)', and the same
    [x] is raised to the caller. *)
Theorem get_db_connection_outcomes (w : world) :
  committed (snd (get_db_connection w)) = committed w /\
  match fst (get_db_connection w) with
  | inr c =>
      c = next_conn w /\
      conn_get c (conns (snd (get_db_connection w))) =
        Some (Conn true (committed w)) /\
      open_conns (snd (get_db_connection w)) = c :: open_conns w /\
      diag (snd (get_db_connection w)) = diag w
  | inl x =>
      (exists fs, faults w = Some x :: fs) /\
      conns (snd (get_db_connection w)) = conns w /\
      diag (snd (get_db_connection w)) =
        (diag w ++ [("Database connection error: " ++ exn_str x)%string])%list
  end.
Proof.
  destruct w as [cfg clk strict com ua la cs nc fs dg ac].
  autounfold with app.
  destruct fs as [|[e|] fs]; sym; repeat split; eauto.
Qed.

(** ** Concrete runs of the properties above *)

Lemma update_then_get_round_trip_witness :
  faults world_john = [] /\
  get_json updated_request = inr (PDict updated_body) /\
  field "name" updated_body = PStr "John Updated" /\
  field "email" updated_body = PStr "john.updated@example.com" /\
  find (has_id 1) (users (committed world_john)) = Some john /\
  (u_name john <> "John Updated" \/ u_email john <> "john.updated@example.com") /\
  (forall u, In u (users (committed world_john)) ->
             u_email u = "john.updated@example.com" -> u_id u = 1%Z) /\
  fst (update_user 1 updated_request world_john) =
    inr (jsonify [("message", PStr "User updated successfully");
                  ("instance_id", PStr "i-1")], 200%Z) /\
  fst (get_user 1 (snd (update_user 1 updated_request world_john))) =
    inr (jsonify [("user",
                   user_dict (UserRow 1 "John Updated"
                                      "john.updated@example.com" 1000 2000));
                  ("instance_id", PStr "i-1")], 200%Z) /\
  open_conns (snd (update_user 1 updated_request world_john)) =
    open_conns world_john.
Proof.
  assert (Hd : u_name john <> "John Updated" \/
               u_email john <> "john.updated@example.com")
    by (left; discriminate).
  assert (Ho : forall u, In u (users (committed world_john)) ->
                         u_email u = "john.updated@example.com" -> u_id u = 1%Z)
    by (intros u [<-|[]] _; reflexivity).
  do 7 (split; [first [reflexivity | assumption]|]).
  exact (update_then_get_round_trip world_john 1 updated_request updated_body
           "John Updated" "john.updated@example.com" john
           eq_refl eq_refl eq_refl eq_refl eq_refl Hd Ho).
Defined.

Lemma update_user_email_collision_witness :
  faults world_two = [] /\
  get_json collide_request = inr (PDict collide_body) /\
  field "name" collide_body = PStr "John Doe" /\
  field "email" collide_body = PStr "jane@example.com" /\
  find (has_id 1) (users (committed world_two)) = Some john /\
  u_email john <> "jane@example.com" /\
  (exists u, In u (users (committed world_two)) /\
             u_email u = "jane@example.com" /\ u_id u <> 1%Z) /\
  fst (update_user 1 collide_request world_two) =
    inr (error_body "Email already exists", 409%Z) /\
  committed (snd (update_user 1 collide_request world_two)) =
    committed world_two /\
  audit_calls (snd (update_user 1 collide_request world_two)) =
    audit_calls world_two.
Proof.
  assert (Hd : u_email john <> "jane@example.com") by discriminate.
  assert (Ho : exists u, In u (users (committed world_two)) /\
                         u_email u = "jane@example.com" /\ u_id u <> 1%Z).
  { exists jane. split; [right; left; reflexivity|].
    split; [reflexivity | discriminate]. }
  do 7 (split; [first [reflexivity | assumption]|]).
  exact (update_user_email_collision world_two 1 collide_request collide_body
           "John Doe" "jane@example.com" john
           eq_refl eq_refl eq_refl eq_refl eq_refl Hd Ho).
Defined.

Lemma update_user_same_values_is_404_witness :
  faults world_john = [] /\
  get_json john_request = inr (PDict john_body) /\
  find (has_id 1) (users (committed world_john)) = Some john /\
  field "name" john_body = PStr (u_name john) /\
  field "email" john_body = PStr (u_email john) /\
  fst (update_user 1 john_request world_john) =
    inr (error_body "User not found", 404%Z) /\
  committed (snd (update_user 1 john_request world_john)) =
    committed world_john /\
  open_conns (snd (update_user 1 john_request world_john)) =
    open_conns world_john.
Proof.
  do 5 (split; [reflexivity|]).
  exact (update_user_same_values_is_404 world_john 1 john_request john_body john
           eq_refl eq_refl eq_refl eq_refl eq_refl).
Defined.

Lemma delete_user_removes_only_that_id_witness :
  faults world_two = [] /\
  (exists u, In u (users (committed world_two)) /\ u_id u = 1%Z) /\
  users (committed (snd (delete_user 1 world_two))) = [jane] /\
  fst (delete_user 1 (snd (delete_user 1 world_two))) =
    inr (error_body "User not found", 404%Z) /\
  fst (get_user 2 (snd (delete_user 1 world_two))) = fst (get_user 2 world_two).
Proof.
  assert (Hex : exists u, In u (users (committed world_two)) /\ u_id u = 1%Z)
    by (exists john; split; [left; reflexivity | reflexivity]).
  do 2 (split; [first [reflexivity | assumption]|]).
  destruct (delete_user_removes_only_that_id world_two 1 eq_refl Hex)
    as (Hu & _ & _ & Hd & Hother).
  split; [exact Hu|]. split; [exact Hd|].
  apply Hother. discriminate.
Defined.

Lemma get_users_lists_every_row_newest_first_witness :
  faults world_two = [] /\
  exists rows,
    fst (get_users world_two) =
      inr (jsonify [("users", PList (map user_dict rows));
                    ("count", PInt (Z.of_nat (List.length rows)));
                    ("instance_id", PStr (INSTANCE_ID (env world_two)))], 200%Z) /\
    Permutation (users (committed world_two)) rows /\
    StronglySorted (desc_by u_created_at) rows /\
    users (committed (snd (get_users world_two))) = users (committed world_two) /\
    open_conns (snd (get_users world_two)) = open_conns world_two.
Proof.
  split; [reflexivity|].
  exact (get_users_lists_every_row_newest_first world_two eq_refl).
Defined.

Lemma unreachable_store_is_500_witness :
  faults world_unreachable = [Some connect_refused] /\
  fails_with get_users world_unreachable
             (error_body (exn_str connect_refused), 500%Z)
             ("ERROR", "Error retrieving users: " ++ exn_str connect_refused) /\
  fst (get_logs empty_request world_unreachable) =
    inr (error_body (exn_str connect_refused), 500%Z).
Proof.
  split; [reflexivity|].
  pose proof (unreachable_store_is_500 world_unreachable connect_refused []
                1 empty_request eq_refl) as (H1 & _ & _ & _ & H5 & _).
  split; [exact H1 | exact H5].
Defined.

Lemma statement_error_classification_witness :
  (faults world_statement_clashes = [None; Some primary_key_clash] /\
   get_json john_request = inr (PDict john_body) /\
   field "name" john_body = PStr "John Doe" /\ "John Doe" <> "" /\
   field "email" john_body = PStr "john@example.com" /\
   "john@example.com" <> "" /\
   is_IntegrityError primary_key_clash = true /\
   fst (create_user john_request world_statement_clashes) =
     inr (error_body "Email already exists", 409%Z))
  /\
  (faults world_statement_times_out = [None; Some lock_timeout] /\
   is_IntegrityError lock_timeout = false /\
   fails_with (create_user john_request) world_statement_times_out
              (error_body (exn_str lock_timeout), 500%Z)
              ("ERROR", "Error creating user: " ++ exn_str lock_timeout)).
Proof.
  assert (Hn : "John Doe" <> "") by discriminate.
  assert (He : "john@example.com" <> "") by discriminate.
  split.
  - do 7 (split; [first [reflexivity | assumption]|]).
    exact (proj1 (proj1 (statement_error_classification
                           world_statement_clashes 1 john_request john_body
                           "John Doe" "john@example.com" primary_key_clash []
                           eq_refl eq_refl eq_refl Hn eq_refl He) eq_refl)).
  - do 2 (split; [reflexivity|]).
    exact (proj1 (proj2 (statement_error_classification
                           world_statement_times_out 1 john_request john_body
                           "John Doe" "john@example.com" lock_timeout []
                           eq_refl eq_refl eq_refl Hn eq_refl He) eq_refl)).
Defined.

Lemma unparsable_body_is_500_witness :
  get_json unparsable_request = inl bad_json /\
  is_IntegrityError bad_json = false /\
  fails_with (create_user unparsable_request) world_john
             (error_body (exn_str bad_json), 500%Z)
             ("ERROR", "Error creating user: " ++ exn_str bad_json) /\
  fails_with (update_user 1 unparsable_request) world_john
             (error_body (exn_str bad_json), 500%Z)
             ("ERROR", "Error updating user " ++ dec 1 ++ ": " ++ exn_str bad_json).
Proof.
  do 2 (split; [reflexivity|]).
  exact (unparsable_body_is_500 world_john 1 unparsable_request bad_json
           eq_refl eq_refl).
Defined.

Lemma non_object_body_is_500_witness :
  get_json list_request = inr (PList [PInt 1]) /\
  truthy (PList [PInt 1]) = true /\
  is_dict (PList [PInt 1]) = false /\
  fails_with (create_user list_request) world_john
             (error_body "'list' object has no attribute 'get'", 500%Z)
             ("ERROR",
              "Error creating user: 'list' object has no attribute 'get'").
Proof.
  do 3 (split; [reflexivity|]).
  exact (proj1 (non_object_body_is_500 world_john 1 list_request
                  (PList [PInt 1]) eq_refl eq_refl eq_refl)).
Defined.

Lemma working_store_leaves_no_connection_witness :
  faults world_john = [] /\
  (0 <= args_get_int (arg_limit empty_request) 100 <= 18446744073709551615)%Z /\
  open_conns (snd (health world_john)) = open_conns world_john /\
  open_conns (snd (get_user 1 world_john)) = open_conns world_john /\
  open_conns (snd (delete_user 1 world_john)) = open_conns world_john /\
  open_conns (snd (get_logs empty_request world_john)) = open_conns world_john.
Proof.
  assert (Hl : (0 <= args_get_int (arg_limit empty_request) 100
                <= 18446744073709551615)%Z) by (cbn; lia).
  do 2 (split; [first [reflexivity | assumption]|]).
  pose proof (working_store_leaves_no_connection world_john 1 empty_request
                eq_refl) as (_ & H2 & _ & H4 & H5 & H6).
  split; [exact H2|]. split; [exact H4|]. split; [exact H5 | exact (H6 Hl)].
Defined.

Lemma init_database_outcomes_witness :
  faults world_unreachable = [Some connect_refused] /\
  fst (init_database world_unreachable) = inl connect_refused /\
  faults world0 = [] /\
  fst (init_database world0) = inr tt.
Proof.
  split; [reflexivity|].
  split; [exact (proj1 (proj2 (proj2 (init_database_outcomes world_unreachable)))
                   connect_refused [] eq_refl)|].
  split; [reflexivity|].
  exact (proj2 (proj2 (proj2 (init_database_outcomes world0))) eq_refl).
Defined.

Lemma get_logs_refuses_bad_limit_witness :
  (args_get_int (arg_limit negative_limit_request) 100 < 0)%Z /\
  exists msg,
    fst (get_logs negative_limit_request world_john) =
      inr (error_body msg, 500%Z).
Proof.
  assert (Hneg : (args_get_int (arg_limit negative_limit_request) 100 < 0)%Z)
    by (cbn; lia).
  split; [exact Hneg|].
  exact (get_logs_refuses_bad_limit negative_limit_request world_john Hneg).
Defined.

Lemma schema_ok_world_john : schema_ok world_john.
Proof.
  unfold schema_ok, users_table. cbn.
  split; [repeat constructor; intros []|].
  split; [repeat constructor; intros []|].
  intros u [<-|[]]. cbn. lia.
Defined.

Lemma schema_kept_by_writes_witness :
  faults world_john = [] /\
  schema_ok world_john /\
  schema_ok (snd (create_user updated_request world_john)) /\
  schema_ok (snd (update_user 1 updated_request world_john)) /\
  schema_ok (snd (delete_user 1 world_john)).
Proof.
  split; [reflexivity|]. split; [exact schema_ok_world_john|].
  exact (schema_kept_by_writes world_john 1 updated_request
           eq_refl schema_ok_world_john).
Defined.

Lemma health_mirrors_the_connection_witness :
  plan_clear 1 (faults world_john) = true /\
  fst (health world_john) =
    inr (jsonify [("status", PStr "healthy");
                  ("database", PStr "connected");
                  ("instance_id", PStr "i-1");
                  ("timestamp", PStr (isoformat 2000))], 200%Z) /\
  audit_calls (snd (health world_john)) = [("INFO", "Health check passed")] /\
  users (committed (snd (health world_john))) = [john].
Proof.
  split; [reflexivity|].
  exact (health_mirrors_the_connection world_john eq_refl).
Defined.

Lemma get_logs_returns_the_newest_witness :
  faults world_logs = [] /\
  (0 <= args_get_int (arg_limit newest_info_request) 100
   <= 18446744073709551615)%Z /\
  fst (get_logs newest_info_request world_logs) =
    inr (jsonify [("logs", PList [log_dict (LogRow 3 "INFO" "c" "i-1" 30)]);
                  ("count", PInt 1);
                  ("instance_id", PStr "i-1")], 200%Z) /\
  exists rows rest,
    fst (get_logs newest_info_request world_logs) =
      inr (jsonify [("logs", PList (map log_dict rows));
                    ("count", PInt (Z.of_nat (List.length rows)));
                    ("instance_id", PStr (INSTANCE_ID (env world_logs)))], 200%Z) /\
    Permutation (matching_logs (arg_level newest_info_request)
                               (logs (committed world_logs)))
                (rows ++ rest) /\
    List.length rows =
      Nat.min (Z.to_nat (args_get_int (arg_limit newest_info_request) 100))
              (List.length (matching_logs (arg_level newest_info_request)
                                          (logs (committed world_logs)))) /\
    (forall r r', In r rows -> In r' rest -> newest_first r r').
Proof.
  assert (Hl : (0 <= args_get_int (arg_limit newest_info_request) 100
                <= 18446744073709551615)%Z) by (cbn; lia).
  do 2 (split; [first [reflexivity | assumption]|]).
  split; [vm_compute; reflexivity|].
  exact (get_logs_returns_the_newest newest_info_request world_logs eq_refl Hl).
Defined.
